(** * The page handler of the OpenAI scraper (src/main.ts)

    A shallow embedding of [requestHandler] of src/main.ts: the part of
    the crawler callback that converts the page, measures it in tokens,
    adapts content that is longer than the context window of the model
    (skip / truncate / split), calls the model and pushes one item to
    the dataset.

    Conventions.
    - JavaScript strings are [string]; token counts are integers ([Z]).
    - [modelConfig.maxTokens * 0.9 - instructionTokenLength] is a
      JavaScript double that is not an integer in general; it is kept as
      an exact rational ([Q]).  Nothing below depends on rounding.
    - The handler is written in a state and exception monad.  The state
      is what the handler can change in its surroundings: the requests
      sent to the model, the usage object of the page, the dataset.
    - The sources of ./openai.js and ./processors.js are not available
      here.  The functions the handler imports from them are the
      fields of two interfaces, [OpenaiJs] and [ProcessorsJs], and the
      handler is written for any instance of them; the class
      [OpenaiAPIUsage] and [processInstructions] are modelled from the
      specification.
    - Logging ([log.info], [log.debug], [log.warning]) only writes and
      never changes control flow; it is left out.  Link discovery (lines
      59-80 of main.ts) belongs to the crawler and happens before the
      part modelled here.  The dataset accepts every item. *)

From Stdlib Require Import ZArith QArith Qround List String Ascii Lia.
Import ListNotations.

Local Open Scope string_scope.
Local Open Scope Z_scope.

(** ** JavaScript values *)

Module Js.

(** [v || d] for an optional string [v] and a string [d]: [undefined]
    and [''] are falsy. *)
Definition or_else (v : option string) (d : string) : string :=
  match v with
  | Some (String a s) => String a s
  | _ => d
  end.

(** [v === lit] for an optional string [v] and a string literal. *)
Definition strict_eq (v : option string) (lit : string) : bool :=
  match v with
  | Some s => String.eqb s lit
  | None => false
  end.

(** [`${v}`]: how a template literal renders an optional string. *)
Definition template (v : option string) : string :=
  match v with
  | Some s => s
  | None => "undefined"
  end.

(** The line feed character of ['\n']. *)
Definition LF : string := String (ascii_of_nat 10) EmptyString.

(** [arr.join(sep)] on an array of strings. *)
Definition join (sep : string) (arr : list string) : string :=
  String.concat sep arr.

(** A thrown value: an [Error] object. *)
Record Error := mkError { name : string; message : string }.

(** [new Error(msg)] *)
Definition new_Error (msg : string) : Error := mkError "Error" msg.

(** How a promise ends. *)
Inductive Settled (A : Type) :=
| Fulfilled (value : A)
| Rejected (reason : Error).
Arguments Fulfilled {A} value.
Arguments Rejected {A} reason.

(** A promise whose end is known: how it settles, and when (a logical
    time; smaller settles earlier, and of two promises with the same
    time the one created first settles first). *)
Record Promise (A : Type) := mkPromise { settledAt : nat; settled : Settled A }.
Arguments mkPromise {A} settledAt settled.
Arguments settledAt {A} p.
Arguments settled {A} p.

Definition is_rejected {A} (p : Promise A) : bool :=
  match settled p with Rejected _ => true | Fulfilled _ => false end.

(** The first rejection in time among [ps], given the earliest one
    found so far. *)
Fixpoint first_rejection {A} (best : option (nat * Error)) (ps : list (Promise A))
  : option (nat * Error) :=
  match ps with
  | [] => best
  | p :: ps' =>
      match settled p with
      | Fulfilled _ => first_rejection best ps'
      | Rejected e =>
          match best with
          | Some (t, _) =>
              if (settledAt p <? t)%nat
              then first_rejection (Some (settledAt p, e)) ps'
              else first_rejection best ps'
          | None => first_rejection (Some (settledAt p, e)) ps'
          end
      end
  end.

(** The values of [ps], in the order of [ps]; only meaningful when no
    promise of [ps] is rejected. *)
Fixpoint values {A} (ps : list (Promise A)) : list A :=
  match ps with
  | [] => []
  | p :: ps' =>
      match settled p with
      | Fulfilled v => v :: values ps'
      | Rejected _ => values ps'
      end
  end.

(** [Promise.all(ps)]: rejected with the reason of the promise that is
    rejected first in time; otherwise fulfilled with the values in the
    order of the array, whatever the order in which they arrived. *)
Definition Promise_all {A} (ps : list (Promise A)) : Settled (list A) :=
  match first_rejection None ps with
  | Some (_, e) => Rejected e
  | None => Fulfilled (values ps)
  end.

End Js.

(** ** Data *)

(** src/input.ts, the fields the handler reads after link discovery. *)
Module Input.
Record t := mk {
  openaiApiKey : string;
  instructions : string;
  targetSelector : option string;
  content : option string;
  longContentConfig : option string
}.
End Input.

(** The value of [validateGPTModel(...)], made once for the run. *)
Module ModelConfig.
Record t := mk { model : string; maxTokens : Z }.
End ModelConfig.

(** The [usage] of an answer of the model. *)
Module Usage.
Record t := mk { promptTokens : Z; completionTokens : Z; totalTokens : Z }.
End Usage.

(** What [processInstructions] resolves to. *)
Module AnswerResult.
Record t := mk { answer : string; usage : Usage.t }.
End AnswerResult.

(** Modelled from the spec: class [OpenaiAPIUsage] of ./openai.js, whose
    source is not available here.  The usage accumulator keeps the
    running totals of the token usage of one page: [logApiCallUsage]
    adds the usage of one call to them, [getTotalTokenUsage] returns the
    accumulated total tokens.  [hasApiKeyExceeded] depends on a ceiling
    that is not described; it is a field of the interface [OpenaiJs]. *)
Module OpenaiAPIUsage.
Record t := mk { model : string; usage : Usage.t }.

Definition new (model : string) : t := mk model (Usage.mk 0 0 0).

Definition logApiCallUsage (u : Usage.t) (this : t) : t :=
  mk (model this)
     (Usage.mk (Usage.promptTokens (usage this) + Usage.promptTokens u)
               (Usage.completionTokens (usage this) + Usage.completionTokens u)
               (Usage.totalTokens (usage this) + Usage.totalTokens u)).

Definition getTotalTokenUsage (this : t) : Z := Usage.totalTokens (usage this).
End OpenaiAPIUsage.

(** The request of the crawler, as far as the handler reads it. *)
Module Request.
Record t := mk { url : string }.
End Request.

(** The page: [page.content()] and [page.$eval(selector, el => el.innerHTML)].
    Both are awaited and may be rejected (no element matches, page closed). *)
Module Page.
Record t := mk {
  content : Js.Settled string;
  eval_innerHTML : string -> Js.Settled string
}.
End Page.

(** The object given to [Dataset.pushData] (main.ts, lines 184-196).
    [url] stands for the fields spread from [createRequestDebugInfo(request)]. *)
Module Item.
Record t := mk {
  url : string;
  contentLength : nat;
  contentTokenLength : Z;
  instructionTokenLength : Z;
  answerTokenLength : Z;
  totalTokenLength : Z;
  openaiModel : string;
  openaiApiKey : bool;
  answer : string;
  originalContent : string;
  content : string
}.
End Item.

(** ** The monad of the handler *)

(** What a run of the handler can change. *)
Record State := mkState {
  modelCalls : list string;          (* prompts sent to the model, oldest first *)
  openaiUsage : OpenaiAPIUsage.t;    (* the usage object of the current page *)
  dataset : list Item.t              (* items pushed, oldest first *)
}.

(** How a statement ends: it goes on with a value, the function returns
    early ([return;]), or an exception is thrown. *)
Inductive Completion (A : Type) :=
| Normal (a : A)
| Return
| Throw (e : Js.Error).
Arguments Normal {A} a.
Arguments Return {A}.
Arguments Throw {A} e.

Definition M (A : Type) : Type := State -> Completion A * State.

Definition ret {A} (a : A) : M A := fun st => (Normal a, st).

Definition bind {A B} (m : M A) (k : A -> M B) : M B :=
  fun st =>
    match m st with
    | (Normal a, st') => k a st'
    | (Return, st') => (Return, st')
    | (Throw e, st') => (Throw e, st')
    end.

Notation "x <- m ;; k" := (bind m (fun x => k))
  (at level 61, m at next level, right associativity).
Notation "m ;;; k" := (bind m (fun _ => k))
  (at level 61, right associativity).

(** [throw e] *)
Definition throw {A} (e : Js.Error) : M A := fun st => (Throw e, st).

(** [return;] *)
Definition return_ {A} : M A := fun st => (Return, st).

(** [try { m } catch (err) { h(err) }] *)
Definition try_catch {A} (m : M A) (h : Js.Error -> M A) : M A :=
  fun st =>
    match m st with
    | (Throw e, st') => h e st'
    | r => r
    end.

(** [await p] for a promise that has settled. *)
Definition await {A} (s : Js.Settled A) : M A :=
  match s with
  | Js.Fulfilled v => ret v
  | Js.Rejected e => throw e
  end.

(** [for (const x of xs) { body(x) }] *)
Fixpoint for_of {A} (xs : list A) (body : A -> M unit) : M unit :=
  match xs with
  | [] => ret tt
  | x :: xs' => body x ;;; for_of xs' body
  end.

(** [const openaiUsage = new OpenaiAPIUsage(model)] *)
Definition new_OpenaiAPIUsage (model : string) : M unit :=
  fun st => (Normal tt, mkState (modelCalls st) (OpenaiAPIUsage.new model) (dataset st)).

(** [openaiUsage.logApiCallUsage(u)] *)
Definition logApiCallUsage (u : Usage.t) : M unit :=
  fun st => (Normal tt,
             mkState (modelCalls st)
                     (OpenaiAPIUsage.logApiCallUsage u (openaiUsage st))
                     (dataset st)).

(** Reads the usage object of the page. *)
Definition get_openaiUsage : M OpenaiAPIUsage.t :=
  fun st => (Normal (openaiUsage st), st).

(** [await Dataset.pushData(item)] *)
Definition Dataset_pushData (item : Item.t) : M unit :=
  fun st => (Normal tt, mkState (modelCalls st) (openaiUsage st) (dataset st ++ [item])).

(** ** The imported modules *)

(** ./openai.js, whose source is not available here: the functions the
    handler calls, as an interface.  [rethrowOpenaiError]
    gives the error to throw for an error of the model client. *)
Class OpenaiJs := {
  getNumberOfTextTokens : string -> Z;
  rethrowOpenaiError : Js.Error -> Js.Error;
  hasApiKeyExceeded : OpenaiAPIUsage.t -> string -> bool
}.

(** ./processors.js, whose source is not available here. *)
Class ProcessorsJs := {
  htmlToMarkdown : string -> string;
  htmlToText : string -> string;
  shrinkHtml : string -> string;
  shortsTextByTokenLength : string -> Q -> string;
  chunkTextByTokenLenght : string -> Q -> list string
}.

(** The model service behind the client [openai] (main.ts, line 37): the
    promise it gives for the [n]-th request it receives (counted from
    0), with the prompt and the configuration of that request. *)
Definition OpenAIClient : Type :=
  nat -> string -> ModelConfig.t -> Js.Promise AnswerResult.t.

(** ** The handler *)

Definition DEFAULT_CONTENT : string := "markdown".

(** The fence of the prompt: three backquotes. *)
Definition FENCE : string := "```".

(** [`${instructions}\`\`\`${content}\`\`\``] *)
Definition mkPrompt (instructions content : string) : string :=
  instructions ++ FENCE ++ content ++ FENCE.

(** [(modelConfig.maxTokens * 0.9) - instructionTokenLength] *)
Definition contentMaxTokens (modelConfig : ModelConfig.t) (instructionTokenLength : Z) : Q :=
  (inject_Z (ModelConfig.maxTokens modelConfig) * (9 # 10) - inject_Z instructionTokenLength)%Q.

Section Handler.

Context {openaiJs : OpenaiJs} {processorsJs : ProcessorsJs}.

(** The module-level constants of main.ts (lines 33, 37, 38). *)
Variable input : Input.t.
Variable openai : OpenAIClient.
Variable modelConfig : ModelConfig.t.

(** Modelled from the spec: [processInstructions] of ./openai.js, whose
    source is not available here.  It makes one outbound model
    invocation for the prompt and gives a promise of the answer and its
    usage.  The request leaves at the call; the promise is what the
    caller gets back. *)
Definition processInstructions (prompt : string) : M (Js.Promise AnswerResult.t) :=
  fun st =>
    (Normal (openai (List.length (modelCalls st)) prompt modelConfig),
     mkState (modelCalls st ++ [prompt]) (openaiUsage st) (dataset st)).

(** Lines 82-84. *)
Definition originalContentHtml (page : Page.t) : Js.Settled string :=
  match Input.targetSelector input with
  | Some (String a s) => Page.eval_innerHTML page (String a s)
  | _ => Page.content page
  end.

(** Lines 86-99: the [switch] on the content format. *)
Definition pageContent (html : string) : string :=
  let content := Js.or_else (Input.content input) DEFAULT_CONTENT in
  if String.eqb content "markdown" then htmlToMarkdown html
  else if String.eqb content "text" then htmlToText html
  else shrinkHtml html.

(** Lines 139-152: one request per chunk, none awaited. *)
Fixpoint dispatch (pageChunks : list string) (promises : list (Js.Promise AnswerResult.t))
  : M (list (Js.Promise AnswerResult.t)) :=
  match pageChunks with
  | [] => ret promises
  | contentPart :: rest =>
      let prompt := mkPrompt (Input.instructions input) contentPart in
      p <- processInstructions prompt ;;
      dispatch rest (promises ++ [p])
  end.

(** Lines 103-179: the answer of the model for the page. *)
Definition adapt (pageContent : string) (contentTokenLength instructionTokenLength : Z)
  : M string :=
  new_OpenaiAPIUsage (ModelConfig.model modelConfig) ;;;
  if ModelConfig.maxTokens modelConfig <? contentTokenLength then
    if Js.strict_eq (Input.longContentConfig input) "skip" then
      return_
    else if Js.strict_eq (Input.longContentConfig input) "truncate" then
      let contentMaxTokens := contentMaxTokens modelConfig instructionTokenLength in
      let truncatedContent := shortsTextByTokenLength pageContent contentMaxTokens in
      let prompt := mkPrompt (Input.instructions input) truncatedContent in
      try_catch
        (p <- processInstructions prompt ;;
         answerResult <- await (Js.settled p) ;;
         logApiCallUsage (AnswerResult.usage answerResult) ;;;
         ret (AnswerResult.answer answerResult))
        (fun err => throw (rethrowOpenaiError err))
    else if Js.strict_eq (Input.longContentConfig input) "split" then
      let contentMaxTokens := contentMaxTokens modelConfig instructionTokenLength in
      let pageChunks := chunkTextByTokenLenght pageContent contentMaxTokens in
      promises <- dispatch pageChunks [] ;;
      try_catch
        (results <- await (Js.Promise_all promises) ;;
         let answer := Js.join Js.LF (map AnswerResult.answer results) in
         for_of results (fun r => logApiCallUsage (AnswerResult.usage r)) ;;;
         ret answer)
        (fun err => throw (rethrowOpenaiError err))
    else
      throw (Js.new_Error ("Unsupported config value for longContentConfig: "
                           ++ Js.template (Input.longContentConfig input)))
  else
    let prompt := mkPrompt (Input.instructions input) pageContent in
    try_catch
      (p <- processInstructions prompt ;;
       answerResult <- await (Js.settled p) ;;
       logApiCallUsage (AnswerResult.usage answerResult) ;;;
       ret (AnswerResult.answer answerResult))
      (fun err => throw (rethrowOpenaiError err)).

(** Lines 82-196. *)
Definition requestHandler (request : Request.t) (page : Page.t) : M unit :=
  originalContentHtml <- await (originalContentHtml page) ;;
  let pageContent := pageContent originalContentHtml in
  let contentTokenLength := getNumberOfTextTokens pageContent in
  let instructionTokenLength := getNumberOfTextTokens (Input.instructions input) in
  answer <- adapt pageContent contentTokenLength instructionTokenLength ;;
  let answerTokenLength := getNumberOfTextTokens answer in
  openaiUsage <- get_openaiUsage ;;
  Dataset_pushData
    (Item.mk (Request.url request)
             (String.length pageContent)
             contentTokenLength
             instructionTokenLength
             answerTokenLength
             (OpenaiAPIUsage.getTotalTokenUsage openaiUsage)
             (ModelConfig.model modelConfig)
             (hasApiKeyExceeded openaiUsage (Input.openaiApiKey input))
             answer
             originalContentHtml
             pageContent).

(** The promises of the requests for [pageChunks], when [n] requests
    have been sent before: what [dispatch] collects. *)
Fixpoint chunkPromises (n : nat) (pageChunks : list string) : list (Js.Promise AnswerResult.t) :=
  match pageChunks with
  | [] => []
  | contentPart :: rest =>
      openai n (mkPrompt (Input.instructions input) contentPart) modelConfig
      :: chunkPromises (S n) rest
  end.

(** The budget and the chunks of a page whose HTML is [html], as the
    split computes them (lines 133-134). *)
Definition pageChunksOf (html : string) : list string :=
  chunkTextByTokenLenght
    (pageContent html)
    (contentMaxTokens modelConfig (getNumberOfTextTokens (Input.instructions input))).

(** The truncated content of a page whose HTML is [html], as the
    truncation computes it (lines 113-114). *)
Definition truncatedContentOf (html : string) : string :=
  shortsTextByTokenLength
    (pageContent html)
    (contentMaxTokens modelConfig (getNumberOfTextTokens (Input.instructions input))).

End Handler.

(** The sum of the total tokens of a list of answers. *)
Definition sumTotalTokens (results : list AnswerResult.t) : Z :=
  fold_right (fun r acc => Usage.totalTokens (AnswerResult.usage r) + acc) 0 results.

(** Recording the usage of the results one after the other. *)
Definition logAll (results : list AnswerResult.t) (usage : OpenaiAPIUsage.t)
  : OpenaiAPIUsage.t :=
  fold_left (fun acc r => OpenaiAPIUsage.logApiCallUsage (AnswerResult.usage r) acc)
            results usage.

(** The answers with one line feed (character 10) between two
    neighbours and none before the first or after the last, written out
    without [Js.join] and [Js.LF]: what the handler is compared with. *)
Fixpoint newlineSeparated (answers : list string) : string :=
  match answers with
  | [] => ""
  | answer :: rest =>
      match rest with
      | [] => answer
      | _ :: _ => answer ++ String "010"%char (newlineSeparated rest)
      end
  end.

(** The outcome and the final state of a run. *)
Definition outcome {A} (r : Completion A * State) : Completion A := fst r.
Definition final {A} (r : Completion A * State) : State := snd r.

(** ** A small instance, to run the handler on concrete pages

    To evaluate the handler, the imported modules and the model are
    instantiated by the simplest functions of the right types.  The general theorems below hold for every instance. *)

Module Sample.

(** One token per character. *)
Definition countTokens (text : string) : Z := Z.of_nat (String.length text).

(** Keeps the text that fits, else its first [floor max] characters. *)
Definition shorten (text : string) (max : Q) : string :=
  if Qle_bool (inject_Z (countTokens text)) max then text
  else substring 0 (Z.to_nat (Qfloor max)) text.

(** Cuts [text] into pieces of [size] characters, the last one shorter. *)
Fixpoint pieces (fuel size : nat) (text : string) : list string :=
  match fuel with
  | O => []
  | S fuel' =>
      match text with
      | EmptyString => []
      | _ => substring 0 size text
             :: pieces fuel' size (substring size (String.length text - size) text)
      end
  end.

(** No piece for a size below one. *)
Definition chunk (text : string) (max : Q) : list string :=
  match Z.to_nat (Qfloor max) with
  | O => []
  | S n => pieces (String.length text) (S n) text
  end.

Definition openaiJs : OpenaiJs := {|
  getNumberOfTextTokens := countTokens;
  rethrowOpenaiError := fun err => Js.mkError "OpenaiError" (Js.message err);
  hasApiKeyExceeded := fun _ _ => false
|}.

Definition processorsJs : ProcessorsJs := {|
  htmlToMarkdown := fun html => "# " ++ html;
  htmlToText := fun html => html;
  shrinkHtml := fun html => "<p>" ++ html ++ "</p>";
  shortsTextByTokenLength := shorten;
  chunkTextByTokenLenght := chunk
|}.

(** The answer to a prompt: the prompt after "Re: ", for a usage of the
    lengths of the prompt and of the answer. *)
Definition answerTo (prompt : string) : AnswerResult.t :=
  let answer := "Re: " ++ prompt in
  AnswerResult.mk answer
                  (Usage.mk (countTokens prompt) (countTokens answer)
                            (countTokens prompt + countTokens answer)).

(** A model that answers every request; later requests settle first. *)
Definition answering : OpenAIClient :=
  fun n prompt _ => Js.mkPromise (10 - n) (Js.Fulfilled (answerTo prompt)).

(** The same answers, settling in the order of the requests. *)
Definition answeringInOrder : OpenAIClient :=
  fun n prompt _ => Js.mkPromise n (Js.Fulfilled (answerTo prompt)).

(** A model that rejects its second request (rate limit) and answers
    the others; the rejection comes last. *)
Definition failingSecond : OpenAIClient :=
  fun n prompt _ =>
    match n with
    | 1%nat => Js.mkPromise 99 (Js.Rejected (Js.mkError "RateLimitError" "429"))
    | _ => Js.mkPromise n (Js.Fulfilled (answerTo prompt))
    end.

Definition gpt10 : ModelConfig.t := ModelConfig.mk "gpt-10" 10.
Definition gpt20 : ModelConfig.t := ModelConfig.mk "gpt-20" 20.

Definition inputWith (content longContentConfig : option string) : Input.t :=
  Input.mk "sk-1" "Sum:" None content longContentConfig.

Definition request : Request.t := Request.mk "https://example.com".

(** A page of twelve characters and a page of three. *)
Definition longPage : Page.t :=
  Page.mk (Js.Fulfilled "abcdefghijkl") (fun _ => Js.Rejected (Js.new_Error "no element")).
Definition shortPage : Page.t :=
  Page.mk (Js.Fulfilled "abc") (fun _ => Js.Rejected (Js.new_Error "no element")).

Definition st0 : State := mkState [] (OpenaiAPIUsage.new "") [].

(** A run of the handler on the instance. *)
Definition run (input : Input.t) (openai : OpenAIClient) (modelConfig : ModelConfig.t)
  (page : Page.t) : Completion unit * State :=
  @requestHandler openaiJs processorsJs input openai modelConfig request page st0.

End Sample.

(** ** The set-up of the run and link discovery (main.ts, lines 22-80) *)

(** JavaScript numbers that may be [undefined]; the numbers of the input
    are counts and depths, kept as integers. *)
Module JsNumber.

(** [!!v]: [undefined] and [0] are falsy. *)
Definition truthy (v : option Z) : bool :=
  match v with
  | Some 0 => false
  | Some _ => true
  | None => false
  end.

(** [v || d] *)
Definition or_else (v : option Z) (d : Z) : Z :=
  match v with
  | Some 0 => d
  | Some n => n
  | None => d
  end.

(** [n < v]: a comparison with [undefined] is false. *)
Definition lt (n : Z) (v : option Z) : bool :=
  match v with
  | Some m => n <? m
  | None => false
  end.

End JsNumber.

(** src/input.ts, the fields read by the set-up of the crawler and by
    link discovery.  A glob is kept as its pattern. *)
Module CrawlInput.
Record t := mk {
  linkSelector : option string;
  globs : option (list string);
  model : option string;
  maxPagesPerCrawl : option Z;
  maxCrawlingDepth : option Z
}.
End CrawlInput.

(** The options of a call of [enqueueLinks] (lines 64-70). *)
Module EnqueueLinks.
Record t := mk { selector : string; globs : list string; depth : Z }.
End EnqueueLinks.

Definition DEFAULT_OPENAI_MODEL : string := "gpt-3.5-turbo".

Definition MAX_REQUESTS_PER_CRAWL : Z := 100.

(** Line 38: the argument of [validateGPTModel]. *)
Definition modelName (input : CrawlInput.t) : string :=
  Js.or_else (CrawlInput.model input) DEFAULT_OPENAI_MODEL.

(** Line 56: the option [maxRequestsPerCrawl] of the crawler. *)
Definition maxRequestsPerCrawl (input : CrawlInput.t) : Z :=
  JsNumber.or_else (CrawlInput.maxPagesPerCrawl input) MAX_REQUESTS_PER_CRAWL.

(** Line 59: [const { depth = 0 } = request.userData]. *)
Definition depthOf (userData_depth : option Z) : Z :=
  match userData_depth with
  | Some depth => depth
  | None => 0
  end.

(** Line 62. *)
Definition isDepthLimitReached (input : CrawlInput.t) (depth : Z) : bool :=
  JsNumber.truthy (CrawlInput.maxCrawlingDepth input)
  && JsNumber.lt depth (CrawlInput.maxCrawlingDepth input).

(** Lines 59-70: the call of [enqueueLinks] the handler makes for a
    request whose user data has the depth [userData_depth], if any.  The
    patterns stand for the conditions [input.linkSelector] (a string
    that is not empty) and [input?.globs?.length] (an array that is not
    empty). *)
Definition linkDiscovery (input : CrawlInput.t) (userData_depth : option Z)
  : option EnqueueLinks.t :=
  let depth := depthOf userData_depth in
  match CrawlInput.linkSelector input, CrawlInput.globs input with
  | Some (String a s), Some (g :: gs) =>
      if negb (isDepthLimitReached input depth)
      then Some (EnqueueLinks.mk (String a s) (g :: gs) (depth + 1))
      else None
  | _, _ => None
  end.

(** ** More instances for concrete runs *)

Module Scenario.

(** A model that rejects every request: the key is not valid. *)
Definition rejecting : OpenAIClient :=
  fun n _ _ => Js.mkPromise n (Js.Rejected (Js.mkError "AuthenticationError" "401")).

(** The input of [Sample.inputWith] with a target selector. *)
Definition selecting (targetSelector : string) : Input.t :=
  Input.mk "sk-1" "Sum:" (Some targetSelector) None None.

(** A chunker that finds nothing to send. *)
Definition noChunks : ProcessorsJs := {|
  htmlToMarkdown := fun html => "# " ++ html;
  htmlToText := fun html => html;
  shrinkHtml := fun html => "<p>" ++ html ++ "</p>";
  shortsTextByTokenLength := Sample.shorten;
  chunkTextByTokenLenght := fun _ _ => []
|}.

(** A state left by an earlier page: one request, usage of 40 tokens. *)
Definition later : State :=
  mkState ["Sum:```earlier```"]
          (OpenaiAPIUsage.mk "gpt-10" (Usage.mk 30 10 40))
          [].

(** A crawl two levels deep, and one without a limit. *)
Definition twoLevels : CrawlInput.t :=
  CrawlInput.mk (Some "a") (Some ["https://example.com/**"]) None None (Some 2).
Definition unlimited : CrawlInput.t :=
  CrawlInput.mk (Some "a") (Some ["https://example.com/**"]) None (Some 0) None.

End Scenario.

(** * Properties *)

(** ** [Promise.all] *)

Section PromiseAll.

Context {A : Type}.
Implicit Types (ps : list (Js.Promise A)) (best : option (nat * Js.Error)).

(** Once a rejection has been seen, there is a first one. *)
Lemma first_rejection_seen ps : forall b,
  Js.first_rejection (Some b) ps <> None.
Proof.
  induction ps as [|p ps IH]; intros [t e]; simpl.
  - discriminate.
  - destruct (Js.settled p); [apply IH|].
    destruct (Js.settledAt p <? t)%nat; apply IH.
Qed.

(** The rejection that is found is the one given or that of a promise
    of the list. *)
Lemma first_rejection_origin ps : forall best t e,
  Js.first_rejection best ps = Some (t, e) ->
  best = Some (t, e) \/
  exists p, In p ps /\ Js.settled p = Js.Rejected e /\ Js.settledAt p = t.
Proof.
  induction ps as [|p ps IH]; intros best t e; simpl.
  - auto.
  - destruct (Js.settled p) as [v|r] eqn:Hp.
    + intros H. destruct (IH _ _ _ H) as [?|(q & ? & ? & ?)]; eauto 6.
    + assert (Hnew : Js.first_rejection (Some (Js.settledAt p, r)) ps = Some (t, e) ->
                     best = Some (t, e) \/
                     exists q, In q (p :: ps) /\ Js.settled q = Js.Rejected e /\ Js.settledAt q = t).
      { intros H. destruct (IH _ _ _ H) as [E|(q & ? & ? & ?)].
        - inversion E; subst. right. exists p. simpl. auto.
        - right. exists q. simpl. auto. }
      assert (Hold : Js.first_rejection best ps = Some (t, e) ->
                     best = Some (t, e) \/
                     exists q, In q (p :: ps) /\ Js.settled q = Js.Rejected e /\ Js.settledAt q = t).
      { intros H. destruct (IH _ _ _ H) as [?|(q & ? & ? & ?)]; [auto|].
        right. exists q. simpl. auto. }
      destruct best as [[t0 e0]|]; [|exact Hnew].
      destruct (Js.settledAt p <? t0)%nat; assumption.
Qed.

(** No promise settles with a rejection before the one that is found. *)
Lemma first_rejection_earliest ps : forall best t e,
  Js.first_rejection best ps = Some (t, e) ->
  (forall t0 e0, best = Some (t0, e0) -> (t <= t0)%nat) /\
  (forall p, In p ps -> Js.is_rejected p = true -> (t <= Js.settledAt p)%nat).
Proof.
  induction ps as [|p ps IH]; intros best t e; simpl.
  - intros ->. split.
    + intros t0 e0 E. inversion E. lia.
    + contradiction.
  - unfold Js.is_rejected in *.
    destruct (Js.settled p) as [v|r] eqn:Hp.
    + intros H. destruct (IH _ _ _ H) as [Hb Hps]. split; [exact Hb|].
      intros q [<-|Hq] Hr; [rewrite Hp in Hr; discriminate|auto].
    + destruct best as [[t0 e0]|].
      * destruct (Js.settledAt p <? t0)%nat eqn:Hlt; intros H;
          destruct (IH _ _ _ H) as [Hb Hps].
        -- apply Nat.ltb_lt in Hlt. specialize (Hb _ _ eq_refl). split.
           ++ intros t1 e1 E. inversion E; subst. lia.
           ++ intros q [<-|Hq] Hr; [lia|auto].
        -- apply Nat.ltb_ge in Hlt. specialize (Hb _ _ eq_refl). split.
           ++ intros t1 e1 E. inversion E; subst. lia.
           ++ intros q [<-|Hq] Hr; [lia|auto].
      * intros H. destruct (IH _ _ _ H) as [Hb Hps].
        specialize (Hb _ _ eq_refl). split; [discriminate|].
        intros q [<-|Hq] Hr; [lia|auto].
Qed.

(** Without a rejected promise no rejection is found. *)
Lemma first_rejection_none ps :
  Forall (fun p => Js.is_rejected p = false) ps ->
  Js.first_rejection None ps = None.
Proof.
  induction 1 as [|p ps Hp _ IH]; simpl; [reflexivity|].
  unfold Js.is_rejected in Hp. destruct (Js.settled p); [exact IH|discriminate].
Qed.

(** With a rejected promise a rejection is found. *)
Lemma first_rejection_some ps :
  Exists (fun p => Js.is_rejected p = true) ps ->
  Js.first_rejection None ps <> None.
Proof.
  induction 1 as [p ps Hp|p ps _ IH]; simpl.
  - unfold Js.is_rejected in Hp. destruct (Js.settled p); [discriminate|].
    apply first_rejection_seen.
  - destruct (Js.settled p); [exact IH|]. apply first_rejection_seen.
Qed.

(** [Promise.all] of promises that are all fulfilled is fulfilled with
    their values in the order of the array. *)
Lemma Promise_all_fulfilled ps (vs : list A) :
  map Js.settled ps = map Js.Fulfilled vs ->
  Js.Promise_all ps = Js.Fulfilled vs.
Proof.
  intros H. unfold Js.Promise_all.
  assert (Hv : Js.values ps = vs /\ Forall (fun p => Js.is_rejected p = false) ps).
  { revert vs H. induction ps as [|p ps IH]; intros [|v vs] H; simpl in *;
      try discriminate; [auto|].
    inversion H as [[Hp Hrest]]. rewrite Hp.
    destruct (IH _ Hrest) as [-> HF]. split; [reflexivity|].
    constructor; [|exact HF]. unfold Js.is_rejected. rewrite Hp. reflexivity. }
  destruct Hv as [-> HF]. rewrite (first_rejection_none _ HF). reflexivity.
Qed.

(** [Promise.all] of promises of which one is rejected is rejected, with
    the reason of a rejected promise of the array, the earliest one. *)
Lemma Promise_all_rejected ps :
  Exists (fun p => Js.is_rejected p = true) ps ->
  exists p e,
    In p ps /\ Js.settled p = Js.Rejected e /\
    Js.Promise_all ps = Js.Rejected e /\
    forall q, In q ps -> Js.is_rejected q = true -> (Js.settledAt p <= Js.settledAt q)%nat.
Proof.
  intros H. unfold Js.Promise_all.
  destruct (Js.first_rejection None ps) as [[t e]|] eqn:E.
  - destruct (first_rejection_origin _ _ _ _ E) as [?|(p & Hin & Hp & Ht)]; [discriminate|].
    exists p, e. repeat split; auto.
    subst t. apply (first_rejection_earliest _ _ _ _ E).
  - exfalso. exact (first_rejection_some _ H E).
Qed.

End PromiseAll.

(** ** The steps of the handler *)

Ltac run_step :=
  unfold bind, ret, throw, return_, try_catch, await, new_OpenaiAPIUsage,
    logApiCallUsage, get_openaiUsage, Dataset_pushData; simpl.

Section Steps.

Context {openaiJs : OpenaiJs} {processorsJs : ProcessorsJs}.
Variable input : Input.t.
Variable openai : OpenAIClient.
Variable modelConfig : ModelConfig.t.

(** The loop of the split sends the prompts of the chunks in order and
    collects their promises in the same order. *)
Lemma dispatch_run pageChunks : forall promises st,
  dispatch input openai modelConfig pageChunks promises st =
  (Normal (promises ++ chunkPromises input openai modelConfig
                                     (List.length (modelCalls st)) pageChunks)%list,
   mkState (modelCalls st ++ map (mkPrompt (Input.instructions input)) pageChunks)
           (openaiUsage st) (dataset st)).
Proof.
  induction pageChunks as [|c rest IH]; intros promises st; simpl.
  - unfold ret. rewrite !app_nil_r. destruct st; reflexivity.
  - unfold bind, processInstructions at 1. rewrite IH. simpl.
    rewrite <- !app_assoc. simpl. rewrite length_app. simpl.
    rewrite Nat.add_1_r. reflexivity.
Qed.

(** There are as many promises as chunks. *)
Lemma chunkPromises_length pageChunks : forall n,
  List.length (chunkPromises input openai modelConfig n pageChunks) = List.length pageChunks.
Proof.
  induction pageChunks as [|c rest IH]; intros n; simpl; [reflexivity|].
  now rewrite IH.
Qed.

(** The promise of the [i]-th chunk is that of request [n + i]. *)
Lemma chunkPromises_nth pageChunks : forall n i contentPart,
  nth_error pageChunks i = Some contentPart ->
  nth_error (chunkPromises input openai modelConfig n pageChunks) i =
  Some (openai (n + i)%nat (mkPrompt (Input.instructions input) contentPart) modelConfig).
Proof.
  induction pageChunks as [|c rest IH]; intros n [|i] contentPart H; simpl in *;
    try discriminate.
  - inversion H; subst. now rewrite Nat.add_0_r.
  - rewrite (IH _ _ _ H). now rewrite Nat.add_succ_r.
Qed.

(** Two clients whose promises settle alike, at whatever times, give
    chunk promises that settle alike. *)
Lemma chunkPromises_settled_ext (openai' : OpenAIClient) pageChunks :
  (forall n prompt, Js.settled (openai' n prompt modelConfig)
                    = Js.settled (openai n prompt modelConfig)) ->
  forall n,
    map Js.settled (chunkPromises input openai' modelConfig n pageChunks) =
    map Js.settled (chunkPromises input openai modelConfig n pageChunks).
Proof.
  intros Hsame. induction pageChunks as [|c rest IH]; intros n; simpl; [reflexivity|].
  now rewrite Hsame, IH.
Qed.

Lemma for_of_logApiCallUsage results : forall st,
  for_of results (fun r => logApiCallUsage (AnswerResult.usage r)) st =
  (Normal tt, mkState (modelCalls st) (logAll results (openaiUsage st)) (dataset st)).
Proof.
  induction results as [|r rest IH]; intros st; simpl.
  - destruct st; reflexivity.
  - unfold bind, logApiCallUsage at 1. rewrite IH. reflexivity.
Qed.

(** The total of the usage object grows by the total tokens of each
    recorded result, once each. *)
Lemma getTotalTokenUsage_logAll results : forall usage,
  OpenaiAPIUsage.getTotalTokenUsage (logAll results usage) =
  OpenaiAPIUsage.getTotalTokenUsage usage + sumTotalTokens results.
Proof.
  induction results as [|r rest IH]; intros usage; simpl.
  - unfold sumTotalTokens. simpl. lia.
  - unfold logAll in *. simpl. rewrite IH.
    unfold OpenaiAPIUsage.getTotalTokenUsage, sumTotalTokens. simpl. lia.
Qed.

(** [join('\n')] puts exactly one line feed between two neighbours. *)
Lemma join_LF_newlineSeparated (answers : list string) :
  Js.join Js.LF answers = newlineSeparated answers.
Proof.
  unfold Js.join, Js.LF.
  induction answers as [|answer rest IH]; [reflexivity|].
  destruct rest as [|next rest']; [reflexivity|].
  change (String.concat (String (ascii_of_nat 10) "") (answer :: next :: rest'))
    with (answer ++ String (ascii_of_nat 10) ""
                 ++ String.concat (String (ascii_of_nat 10) "") (next :: rest')).
  rewrite IH. reflexivity.
Qed.

(** The run of the handler once the page is there, in terms of [adapt]. *)
Lemma requestHandler_run request page html st :
  originalContentHtml input page = Js.Fulfilled html ->
  requestHandler input openai modelConfig request page st =
  let pageContent := pageContent input html in
  let contentTokenLength := getNumberOfTextTokens pageContent in
  let instructionTokenLength := getNumberOfTextTokens (Input.instructions input) in
  match adapt input openai modelConfig pageContent contentTokenLength instructionTokenLength st with
  | (Normal answer, st') =>
      (Normal tt,
       mkState (modelCalls st') (openaiUsage st')
         (dataset st' ++
          [Item.mk (Request.url request) (String.length pageContent)
                   contentTokenLength instructionTokenLength
                   (getNumberOfTextTokens answer)
                   (OpenaiAPIUsage.getTotalTokenUsage (openaiUsage st'))
                   (ModelConfig.model modelConfig)
                   (hasApiKeyExceeded (openaiUsage st') (Input.openaiApiKey input))
                   answer html pageContent]))
  | (Return, st') => (Return, st')
  | (Throw e, st') => (Throw e, st')
  end.
Proof.
  intros Hpage. unfold requestHandler, bind at 1. rewrite Hpage. simpl.
  unfold bind at 1.
  destruct (adapt _ _ _ _ _ _ st) as [[answer| |e] st']; reflexivity.
Qed.

(** A single request that is awaited inside [try]/[catch], as on the
    pass-through and the truncate paths. *)
Lemma single_call_run prompt st :
  try_catch
    (p <- processInstructions openai modelConfig prompt ;;
     answerResult <- await (Js.settled p) ;;
     logApiCallUsage (AnswerResult.usage answerResult) ;;;
     ret (AnswerResult.answer answerResult))
    (fun err => throw (rethrowOpenaiError err)) st =
  match Js.settled (openai (List.length (modelCalls st)) prompt modelConfig) with
  | Js.Fulfilled answerResult =>
      (Normal (AnswerResult.answer answerResult),
       mkState (modelCalls st ++ [prompt])
               (OpenaiAPIUsage.logApiCallUsage (AnswerResult.usage answerResult) (openaiUsage st))
               (dataset st))
  | Js.Rejected err =>
      (Throw (rethrowOpenaiError err),
       mkState (modelCalls st ++ [prompt]) (openaiUsage st) (dataset st))
  end.
Proof.
  unfold processInstructions. run_step.
  destruct (Js.settled (openai _ prompt modelConfig)); reflexivity.
Qed.

End Steps.

(** ** The branches of [adapt] *)

Section Branches.

Context {openaiJs : OpenaiJs} {processorsJs : ProcessorsJs}.
Variable input : Input.t.
Variable openai : OpenAIClient.
Variable modelConfig : ModelConfig.t.

Let instructions := Input.instructions input.
Let fresh := OpenaiAPIUsage.new (ModelConfig.model modelConfig).

(** Content that fits: one request with the whole content. *)
Lemma adapt_fits pageContent contentTokenLength instructionTokenLength st :
  contentTokenLength <= ModelConfig.maxTokens modelConfig ->
  adapt input openai modelConfig pageContent contentTokenLength instructionTokenLength st =
  let prompt := mkPrompt instructions pageContent in
  match Js.settled (openai (List.length (modelCalls st)) prompt modelConfig) with
  | Js.Fulfilled answerResult =>
      (Normal (AnswerResult.answer answerResult),
       mkState (modelCalls st ++ [prompt])
               (OpenaiAPIUsage.logApiCallUsage (AnswerResult.usage answerResult) fresh)
               (dataset st))
  | Js.Rejected err =>
      (Throw (rethrowOpenaiError err),
       mkState (modelCalls st ++ [prompt]) fresh (dataset st))
  end.
Proof.
  intros Hfit. apply Z.ltb_ge in Hfit.
  unfold adapt, bind at 1, new_OpenaiAPIUsage. rewrite Hfit.
  rewrite single_call_run. reflexivity.
Qed.

(** Long content, policy [skip]: the handler returns. *)
Lemma adapt_skip pageContent contentTokenLength instructionTokenLength st :
  ModelConfig.maxTokens modelConfig < contentTokenLength ->
  Input.longContentConfig input = Some "skip" ->
  adapt input openai modelConfig pageContent contentTokenLength instructionTokenLength st =
  (Return, mkState (modelCalls st) fresh (dataset st)).
Proof.
  intros Hlong Hcfg. apply Z.ltb_lt in Hlong.
  unfold adapt, bind at 1, new_OpenaiAPIUsage. rewrite Hlong, Hcfg. reflexivity.
Qed.

(** Long content, policy [truncate]: one request with what
    [shortsTextByTokenLength] gives for the budget. *)
Lemma adapt_truncate pageContent contentTokenLength instructionTokenLength st :
  ModelConfig.maxTokens modelConfig < contentTokenLength ->
  Input.longContentConfig input = Some "truncate" ->
  adapt input openai modelConfig pageContent contentTokenLength instructionTokenLength st =
  let truncatedContent :=
    shortsTextByTokenLength pageContent (contentMaxTokens modelConfig instructionTokenLength) in
  let prompt := mkPrompt instructions truncatedContent in
  match Js.settled (openai (List.length (modelCalls st)) prompt modelConfig) with
  | Js.Fulfilled answerResult =>
      (Normal (AnswerResult.answer answerResult),
       mkState (modelCalls st ++ [prompt])
               (OpenaiAPIUsage.logApiCallUsage (AnswerResult.usage answerResult) fresh)
               (dataset st))
  | Js.Rejected err =>
      (Throw (rethrowOpenaiError err),
       mkState (modelCalls st ++ [prompt]) fresh (dataset st))
  end.
Proof.
  intros Hlong Hcfg. apply Z.ltb_lt in Hlong.
  unfold adapt, bind at 1, new_OpenaiAPIUsage. rewrite Hlong, Hcfg. simpl.
  rewrite single_call_run. reflexivity.
Qed.

(** Long content, policy [split]: one request per chunk, then
    [Promise.all] decides. *)
Lemma adapt_split pageContent contentTokenLength instructionTokenLength st :
  ModelConfig.maxTokens modelConfig < contentTokenLength ->
  Input.longContentConfig input = Some "split" ->
  adapt input openai modelConfig pageContent contentTokenLength instructionTokenLength st =
  let pageChunks :=
    chunkTextByTokenLenght pageContent (contentMaxTokens modelConfig instructionTokenLength) in
  let promises :=
    chunkPromises input openai modelConfig (List.length (modelCalls st)) pageChunks in
  let sent := (modelCalls st ++ map (mkPrompt instructions) pageChunks)%list in
  match Js.Promise_all promises with
  | Js.Fulfilled results =>
      (Normal (Js.join Js.LF (map AnswerResult.answer results)),
       mkState sent (logAll results fresh) (dataset st))
  | Js.Rejected err =>
      (Throw (rethrowOpenaiError err), mkState sent fresh (dataset st))
  end.
Proof.
  intros Hlong Hcfg. apply Z.ltb_lt in Hlong.
  unfold adapt, bind at 1, new_OpenaiAPIUsage. rewrite Hlong, Hcfg. simpl.
  unfold bind at 1. rewrite dispatch_run. simpl.
  unfold try_catch, bind at 1.
  destruct (Js.Promise_all _) as [results|err]; simpl.
  - unfold ret at 1. unfold bind. rewrite for_of_logApiCallUsage. reflexivity.
  - reflexivity.
Qed.

(** Long content and any other policy value: the configuration error. *)
Lemma adapt_unsupported pageContent contentTokenLength instructionTokenLength st :
  ModelConfig.maxTokens modelConfig < contentTokenLength ->
  Input.longContentConfig input <> Some "skip" ->
  Input.longContentConfig input <> Some "truncate" ->
  Input.longContentConfig input <> Some "split" ->
  adapt input openai modelConfig pageContent contentTokenLength instructionTokenLength st =
  (Throw (Js.new_Error ("Unsupported config value for longContentConfig: "
                        ++ Js.template (Input.longContentConfig input))),
   mkState (modelCalls st) fresh (dataset st)).
Proof.
  intros Hlong Hskip Htrunc Hsplit. apply Z.ltb_lt in Hlong.
  unfold adapt, bind at 1, new_OpenaiAPIUsage. rewrite Hlong.
  assert (Hne : forall lit, Input.longContentConfig input <> Some lit ->
                            Js.strict_eq (Input.longContentConfig input) lit = false).
  { intros lit H. unfold Js.strict_eq. destruct (Input.longContentConfig input) as [s|]; [|reflexivity].
    apply String.eqb_neq. congruence. }
  rewrite !Hne by assumption. reflexivity.
Qed.

(** The policy value is one of the three names or none of them. *)
Lemma longContentConfig_cases :
  Input.longContentConfig input = Some "skip" \/
  Input.longContentConfig input = Some "truncate" \/
  Input.longContentConfig input = Some "split" \/
  (Input.longContentConfig input <> Some "skip" /\
   Input.longContentConfig input <> Some "truncate" /\
   Input.longContentConfig input <> Some "split").
Proof.
  destruct (Input.longContentConfig input) as [s|].
  - destruct (String.eqb_spec s "skip"); [subst; auto|].
    destruct (String.eqb_spec s "truncate"); [subst; auto|].
    destruct (String.eqb_spec s "split"); [subst; auto|].
    right; right; right. repeat split; congruence.
  - right; right; right. repeat split; discriminate.
Qed.

(** [adapt] never writes to the dataset. *)
Lemma adapt_dataset pageContent contentTokenLength instructionTokenLength st :
  dataset (snd (adapt input openai modelConfig pageContent
                      contentTokenLength instructionTokenLength st)) = dataset st.
Proof.
  destruct (Z.le_gt_cases contentTokenLength (ModelConfig.maxTokens modelConfig)) as [Hfit|Hlong].
  - rewrite adapt_fits by assumption. simpl.
    destruct (Js.settled _); reflexivity.
  - destruct longContentConfig_cases as [H|[H|[H|(H1 & H2 & H3)]]].
    + rewrite adapt_skip by assumption. reflexivity.
    + rewrite adapt_truncate by assumption. simpl. destruct (Js.settled _); reflexivity.
    + rewrite adapt_split by assumption. simpl. destruct (Js.Promise_all _); reflexivity.
    + rewrite adapt_unsupported by assumption. reflexivity.
Qed.

(** A promise among those of the chunks is the promise of a request
    sent for one of the chunks. *)
Lemma chunkPromises_In pageChunks : forall n p,
  In p (chunkPromises input openai modelConfig n pageChunks) ->
  exists i contentPart,
    nth_error pageChunks i = Some contentPart /\
    p = openai (n + i)%nat (mkPrompt instructions contentPart) modelConfig.
Proof.
  induction pageChunks as [|c rest IH]; intros n p; simpl; [contradiction|].
  intros [<-|Hin].
  - exists 0%nat, c. rewrite Nat.add_0_r. auto.
  - destruct (IH _ _ Hin) as (i & part & Hnth & ->).
    exists (S i), part. rewrite Nat.add_succ_r. auto.
Qed.

(** An error thrown by [adapt] is the configuration error or the
    rethrown reason of a rejected request. *)
Lemma adapt_throw_origin pageContent contentTokenLength instructionTokenLength st e st' :
  adapt input openai modelConfig pageContent contentTokenLength instructionTokenLength st
  = (Throw e, st') ->
  (ModelConfig.maxTokens modelConfig < contentTokenLength /\
   Input.longContentConfig input <> Some "skip" /\
   Input.longContentConfig input <> Some "truncate" /\
   Input.longContentConfig input <> Some "split" /\
   e = Js.new_Error ("Unsupported config value for longContentConfig: "
                     ++ Js.template (Input.longContentConfig input))) \/
  exists n prompt err,
    Js.settled (openai n prompt modelConfig) = Js.Rejected err /\
    e = rethrowOpenaiError err.
Proof.
  destruct (Z.le_gt_cases contentTokenLength (ModelConfig.maxTokens modelConfig)) as [Hfit|Hlong].
  - rewrite adapt_fits by assumption. simpl.
    destruct (Js.settled _) as [r|err] eqn:E; intros H; inversion H; subst.
    right. eauto.
  - destruct longContentConfig_cases as [H|[H|[H|(H1 & H2 & H3)]]].
    + rewrite adapt_skip by assumption. discriminate.
    + rewrite adapt_truncate by assumption. simpl.
      destruct (Js.settled _) as [r|err] eqn:E; intros H'; inversion H'; subst.
      right. eauto.
    + rewrite adapt_split by assumption. simpl.
      destruct (Js.Promise_all _) as [results|err] eqn:E; intros H'; inversion H'; subst.
      right. unfold Js.Promise_all in E.
      destruct (Js.first_rejection None _) as [[t e0]|] eqn:F; [|discriminate].
      inversion E; subst.
      destruct (first_rejection_origin _ _ _ _ F) as [?|(p & Hin & Hp & _)]; [discriminate|].
      destruct (chunkPromises_In _ _ _ Hin) as (i & part & _ & ->). eauto.
    + rewrite adapt_unsupported by assumption. intros H; inversion H; subst.
      left. auto.
Qed.

End Branches.

(** * The claims *)

(** ** Pass-through *)

(** C1: when the content of the page has at most [maxTokens] tokens, the
    handler sends exactly one request to the model, and its prompt is
    the instructions followed by the whole converted content between
    fences; the value of [longContentConfig] plays no part. *)
Theorem pass_through_single_call `{OpenaiJs} `{ProcessorsJs}
  (input : Input.t) (openai : OpenAIClient) (modelConfig : ModelConfig.t)
  (request : Request.t) (page : Page.t) (html : string) (st : State) :
  originalContentHtml input page = Js.Fulfilled html ->
  getNumberOfTextTokens (pageContent input html) <= ModelConfig.maxTokens modelConfig ->
  modelCalls (final (requestHandler input openai modelConfig request page st)) =
  (modelCalls st ++ [mkPrompt (Input.instructions input) (pageContent input html)])%list.
Proof.
  intros Hpage Hfit. rewrite (requestHandler_run _ _ _ _ _ _ _ Hpage). simpl.
  rewrite adapt_fits by assumption. simpl.
  destruct (Js.settled _); reflexivity.
Qed.

Lemma pass_through_single_call_witness :
  let input := Sample.inputWith None (Some "skip") in
  @originalContentHtml input Sample.longPage = Js.Fulfilled "abcdefghijkl" /\
  @getNumberOfTextTokens Sample.openaiJs (@pageContent Sample.processorsJs input "abcdefghijkl")
    <= ModelConfig.maxTokens Sample.gpt20 /\
  modelCalls (final (Sample.run input Sample.answering Sample.gpt20 Sample.longPage)) =
  ["Sum:```# abcdefghijkl```"].
Proof.
  intros input.
  assert (Hpage : @originalContentHtml input Sample.longPage = Js.Fulfilled "abcdefghijkl")
    by reflexivity.
  assert (Hfit : @getNumberOfTextTokens Sample.openaiJs
                   (@pageContent Sample.processorsJs input "abcdefghijkl")
                 <= ModelConfig.maxTokens Sample.gpt20)
    by (vm_compute; discriminate).
  split; [exact Hpage|]. split; [exact Hfit|].
  exact (@pass_through_single_call Sample.openaiJs Sample.processorsJs input Sample.answering
           Sample.gpt20 Sample.request Sample.longPage "abcdefghijkl" Sample.st0 Hpage Hfit).
Defined.

(** ** The policy value *)

(** C2, as stated, fails: a policy value outside [skip], [truncate],
    [split] is not looked at when the content fits.  Here the value is
    [bogus], the page has five tokens for a window of ten, and the
    handler sends its request and ends normally, with one item pushed. *)
Lemma unsupported_policy_ignored_when_fits :
  let input := Sample.inputWith None (Some "bogus") in
  let r := Sample.run input Sample.answering Sample.gpt10 Sample.shortPage in
  Input.longContentConfig input <> Some "skip" /\
  Input.longContentConfig input <> Some "truncate" /\
  Input.longContentConfig input <> Some "split" /\
  outcome r = Normal tt /\
  modelCalls (final r) = ["Sum:```# abc```"] /\
  List.length (dataset (final r)) = 1%nat.
Proof.
  cbv zeta. repeat split; try discriminate; reflexivity.
Qed.

(** C2, amended: when the content of the page has more than [maxTokens]
    tokens and [longContentConfig] is none of [skip], [truncate],
    [split] (unset included), the handler throws the error
    "Unsupported config value for longContentConfig: ..." without
    having sent a request to the model and without pushing an item. *)
Theorem unsupported_policy_rejected `{OpenaiJs} `{ProcessorsJs}
  (input : Input.t) (openai : OpenAIClient) (modelConfig : ModelConfig.t)
  (request : Request.t) (page : Page.t) (html : string) (st : State) :
  originalContentHtml input page = Js.Fulfilled html ->
  ModelConfig.maxTokens modelConfig < getNumberOfTextTokens (pageContent input html) ->
  Input.longContentConfig input <> Some "skip" ->
  Input.longContentConfig input <> Some "truncate" ->
  Input.longContentConfig input <> Some "split" ->
  let r := requestHandler input openai modelConfig request page st in
  outcome r = Throw (Js.new_Error ("Unsupported config value for longContentConfig: "
                                   ++ Js.template (Input.longContentConfig input))) /\
  modelCalls (final r) = modelCalls st /\
  dataset (final r) = dataset st.
Proof.
  intros Hpage Hlong Hskip Htrunc Hsplit. cbv zeta.
  rewrite (requestHandler_run _ _ _ _ _ _ _ Hpage). simpl.
  rewrite adapt_unsupported by assumption. auto.
Qed.

Lemma unsupported_policy_rejected_witness :
  let input := Sample.inputWith None (Some "bogus") in
  let r := Sample.run input Sample.answering Sample.gpt10 Sample.longPage in
  outcome r = Throw (Js.new_Error "Unsupported config value for longContentConfig: bogus") /\
  modelCalls (final r) = [] /\
  dataset (final r) = [].
Proof.
  intros input.
  refine (@unsupported_policy_rejected Sample.openaiJs Sample.processorsJs input
            Sample.answering Sample.gpt10 Sample.request Sample.longPage "abcdefghijkl"
            Sample.st0 eq_refl _ _ _ _).
  - vm_compute. reflexivity.
  - discriminate.
  - discriminate.
  - discriminate.
Defined.

(** ** The item pushed to the dataset *)

(** C4, as stated, fails: under [truncate] the prompt carries the
    truncated text while the item keeps the whole converted content.
    Here the budget is 9 - 4 = 5 tokens: the prompt holds the first
    five characters of the markdown, the item all fourteen. *)
Lemma item_content_not_truncated :
  let input := Sample.inputWith None (Some "truncate") in
  let r := Sample.run input Sample.answering Sample.gpt10 Sample.longPage in
  outcome r = Normal tt /\
  modelCalls (final r) = [mkPrompt "Sum:" "# abc"] /\
  map Item.content (dataset (final r)) = ["# abcdefghijkl"] /\
  "# abcdefghijkl" <> "# abc".
Proof.
  cbv zeta. repeat split; try reflexivity. discriminate.
Qed.

(** C4, amended: every run of the handler that ends normally pushes
    exactly one item, whose field [content] is the whole converted
    content of the page (the text that was measured, whatever part of
    it went into the prompts), whose field [originalContent] is the
    HTML of the page and whose field [contentLength] is the length of
    the converted content. *)
Theorem item_holds_converted_content `{OpenaiJs} `{ProcessorsJs}
  (input : Input.t) (openai : OpenAIClient) (modelConfig : ModelConfig.t)
  (request : Request.t) (page : Page.t) (html : string) (st : State) :
  originalContentHtml input page = Js.Fulfilled html ->
  let r := requestHandler input openai modelConfig request page st in
  outcome r = Normal tt ->
  exists item,
    dataset (final r) = (dataset st ++ [item])%list /\
    Item.content item = pageContent input html /\
    Item.originalContent item = html /\
    Item.contentLength item = String.length (pageContent input html).
Proof.
  intros Hpage. cbv zeta.
  rewrite (requestHandler_run _ _ _ _ _ _ _ Hpage). simpl.
  pose proof (adapt_dataset input openai modelConfig (pageContent input html)
                (getNumberOfTextTokens (pageContent input html))
                (getNumberOfTextTokens (Input.instructions input)) st) as Hds.
  destruct (adapt _ _ _ _ _ _ st) as [[answer| |e] st']; simpl in *; try discriminate.
  intros _. rewrite Hds. eexists. repeat split.
Qed.

Lemma item_holds_converted_content_witness :
  let input := Sample.inputWith None (Some "truncate") in
  let r := Sample.run input Sample.answering Sample.gpt10 Sample.longPage in
  exists item,
    dataset (final r) = [item] /\
    Item.content item = "# abcdefghijkl" /\
    Item.originalContent item = "abcdefghijkl" /\
    Item.contentLength item = 14%nat.
Proof.
  intros input.
  exact (@item_holds_converted_content Sample.openaiJs Sample.processorsJs input
           Sample.answering Sample.gpt10 Sample.request Sample.longPage "abcdefghijkl"
           Sample.st0 eq_refl eq_refl).
Defined.

(** ** Skip *)

(** C5: when the content has more than [maxTokens] tokens and the policy
    is [skip], the handler returns (it does not throw), having sent no
    request to the model and pushed no item. *)
Theorem skip_is_silent `{OpenaiJs} `{ProcessorsJs}
  (input : Input.t) (openai : OpenAIClient) (modelConfig : ModelConfig.t)
  (request : Request.t) (page : Page.t) (html : string) (st : State) :
  originalContentHtml input page = Js.Fulfilled html ->
  ModelConfig.maxTokens modelConfig < getNumberOfTextTokens (pageContent input html) ->
  Input.longContentConfig input = Some "skip" ->
  let r := requestHandler input openai modelConfig request page st in
  outcome r = Return /\
  modelCalls (final r) = modelCalls st /\
  dataset (final r) = dataset st.
Proof.
  intros Hpage Hlong Hcfg. cbv zeta.
  rewrite (requestHandler_run _ _ _ _ _ _ _ Hpage). simpl.
  rewrite adapt_skip by assumption. auto.
Qed.

Lemma skip_is_silent_witness :
  let input := Sample.inputWith None (Some "skip") in
  let r := Sample.run input Sample.answering Sample.gpt10 Sample.longPage in
  outcome r = Return /\ modelCalls (final r) = [] /\ dataset (final r) = [].
Proof.
  intros input.
  refine (@skip_is_silent Sample.openaiJs Sample.processorsJs input
            Sample.answering Sample.gpt10 Sample.request Sample.longPage "abcdefghijkl"
            Sample.st0 eq_refl _ eq_refl).
  vm_compute. reflexivity.
Defined.

(** ** Split *)

(** C6: under [split], when the request of at least one chunk is
    rejected, the handler throws the rethrown reason of a rejected
    chunk request (the one that is rejected first, which is the one
    [Promise.all] reports) and pushes no item, however many of the
    other requests were fulfilled. *)
Theorem split_fails_as_a_whole `{OpenaiJs} `{ProcessorsJs}
  (input : Input.t) (openai : OpenAIClient) (modelConfig : ModelConfig.t)
  (request : Request.t) (page : Page.t) (html : string) (st : State) :
  originalContentHtml input page = Js.Fulfilled html ->
  ModelConfig.maxTokens modelConfig < getNumberOfTextTokens (pageContent input html) ->
  Input.longContentConfig input = Some "split" ->
  let promises :=
    chunkPromises input openai modelConfig (List.length (modelCalls st))
                  (pageChunksOf input modelConfig html) in
  Exists (fun p => Js.is_rejected p = true) promises ->
  let r := requestHandler input openai modelConfig request page st in
  (exists p err,
     In p promises /\ Js.settled p = Js.Rejected err /\
     (forall q, In q promises -> Js.is_rejected q = true ->
                (Js.settledAt p <= Js.settledAt q)%nat) /\
     outcome r = Throw (rethrowOpenaiError err)) /\
  dataset (final r) = dataset st.
Proof.
  intros Hpage Hlong Hcfg promises Hrej. cbv zeta.
  rewrite (requestHandler_run _ _ _ _ _ _ _ Hpage). simpl.
  rewrite adapt_split by assumption. simpl.
  destruct (Promise_all_rejected _ Hrej) as (p & err & Hin & Hp & Hall & Hfirst).
  fold (pageChunksOf input modelConfig html). fold promises.
  rewrite Hall. simpl. split; [|reflexivity].
  exists p, err. auto.
Qed.

Lemma split_fails_as_a_whole_witness :
  let input := Sample.inputWith (Some "text") (Some "split") in
  let r := Sample.run input Sample.failingSecond Sample.gpt10 Sample.longPage in
  let promises :=
    @chunkPromises input Sample.failingSecond Sample.gpt10 0
      (@pageChunksOf Sample.openaiJs Sample.processorsJs input Sample.gpt10 "abcdefghijkl") in
  List.length promises = 3%nat /\
  (exists p err,
     In p promises /\ Js.settled p = Js.Rejected err /\
     (forall q, In q promises -> Js.is_rejected q = true ->
                (Js.settledAt p <= Js.settledAt q)%nat) /\
     outcome r = Throw (@rethrowOpenaiError Sample.openaiJs err)) /\
  dataset (final r) = [].
Proof.
  intros input. split; [reflexivity|].
  refine (@split_fails_as_a_whole Sample.openaiJs Sample.processorsJs input
            Sample.failingSecond Sample.gpt10 Sample.request Sample.longPage "abcdefghijkl"
            Sample.st0 eq_refl _ eq_refl _).
  - vm_compute. reflexivity.
  - vm_compute. apply Exists_cons_tl, Exists_cons_hd. reflexivity.
Defined.

(** C7: under [split], when the requests of all chunks are fulfilled,
    the handler ends normally and the answer of the item is the answers
    of the chunks, in the order of the chunks, with exactly one line
    feed between two neighbouring answers (nothing before the first,
    nothing after the last; the empty string when there is no chunk).
    [results] lists the values by the position of their chunk.  The
    order in which the promises settle plays no part: the same holds
    with any client [openai'] whose promises settle with the same
    values at other times. *)
Theorem split_answer_joined_in_order `{OpenaiJs} `{ProcessorsJs}
  (input : Input.t) (openai : OpenAIClient) (modelConfig : ModelConfig.t)
  (request : Request.t) (page : Page.t) (html : string) (st : State)
  (results : list AnswerResult.t) :
  originalContentHtml input page = Js.Fulfilled html ->
  ModelConfig.maxTokens modelConfig < getNumberOfTextTokens (pageContent input html) ->
  Input.longContentConfig input = Some "split" ->
  map Js.settled
      (chunkPromises input openai modelConfig (List.length (modelCalls st))
                     (pageChunksOf input modelConfig html))
  = map Js.Fulfilled results ->
  forall openai' : OpenAIClient,
    (forall n prompt, Js.settled (openai' n prompt modelConfig)
                      = Js.settled (openai n prompt modelConfig)) ->
    let r := requestHandler input openai' modelConfig request page st in
    outcome r = Normal tt /\
    exists item,
      dataset (final r) = (dataset st ++ [item])%list /\
      Item.answer item = newlineSeparated (map AnswerResult.answer results).
Proof.
  intros Hpage Hlong Hcfg Hall openai' Hsame. cbv zeta.
  rewrite <- (chunkPromises_settled_ext input openai modelConfig openai' _ Hsame) in Hall.
  rewrite (requestHandler_run _ _ _ _ _ _ _ Hpage). simpl.
  rewrite adapt_split by assumption. simpl.
  fold (pageChunksOf input modelConfig html).
  rewrite (Promise_all_fulfilled _ _ Hall). simpl.
  split; [reflexivity|]. eexists. split; [reflexivity|]. simpl.
  apply join_LF_newlineSeparated.
Qed.

Lemma split_answer_joined_in_order_witness :
  let input := Sample.inputWith (Some "text") (Some "split") in
  let r := Sample.run input Sample.answeringInOrder Sample.gpt10 Sample.longPage in
  let LF := String "010"%char "" in
  modelCalls (final r) = ["Sum:```abcde```"; "Sum:```fghij```"; "Sum:```kl```"] /\
  outcome r = Normal tt /\
  exists item,
    dataset (final r) = [item] /\
    Item.answer item =
    "Re: Sum:```abcde```" ++ LF ++ "Re: Sum:```fghij```" ++ LF ++ "Re: Sum:```kl```".
Proof.
  intros input. cbv zeta. split; [reflexivity|].
  exact (@split_answer_joined_in_order Sample.openaiJs Sample.processorsJs input
           Sample.answering Sample.gpt10 Sample.request Sample.longPage "abcdefghijkl"
           Sample.st0
           [Sample.answerTo "Sum:```abcde```"; Sample.answerTo "Sum:```fghij```";
            Sample.answerTo "Sum:```kl```"]
           eq_refl eq_refl eq_refl eq_refl
           Sample.answeringInOrder (fun n prompt => eq_refl)).
Defined.

(** C8: under [split], when the requests of all chunks are fulfilled,
    the total token usage of the item, and of the usage object of the
    page, is the sum of the total tokens of the answers of the chunks,
    each counted once.  The order in which the promises settle plays no
    part: the same holds with any client [openai'] whose promises
    settle with the same values at other times. *)
Theorem split_usage_is_the_sum `{OpenaiJs} `{ProcessorsJs}
  (input : Input.t) (openai : OpenAIClient) (modelConfig : ModelConfig.t)
  (request : Request.t) (page : Page.t) (html : string) (st : State)
  (results : list AnswerResult.t) :
  originalContentHtml input page = Js.Fulfilled html ->
  ModelConfig.maxTokens modelConfig < getNumberOfTextTokens (pageContent input html) ->
  Input.longContentConfig input = Some "split" ->
  map Js.settled
      (chunkPromises input openai modelConfig (List.length (modelCalls st))
                     (pageChunksOf input modelConfig html))
  = map Js.Fulfilled results ->
  forall openai' : OpenAIClient,
    (forall n prompt, Js.settled (openai' n prompt modelConfig)
                      = Js.settled (openai n prompt modelConfig)) ->
    let r := requestHandler input openai' modelConfig request page st in
    OpenaiAPIUsage.getTotalTokenUsage (openaiUsage (final r)) = sumTotalTokens results /\
    exists item,
      dataset (final r) = (dataset st ++ [item])%list /\
      Item.totalTokenLength item = sumTotalTokens results.
Proof.
  intros Hpage Hlong Hcfg Hall openai' Hsame. cbv zeta.
  rewrite <- (chunkPromises_settled_ext input openai modelConfig openai' _ Hsame) in Hall.
  rewrite (requestHandler_run _ _ _ _ _ _ _ Hpage). simpl.
  rewrite adapt_split by assumption. simpl.
  fold (pageChunksOf input modelConfig html).
  rewrite (Promise_all_fulfilled _ _ Hall). simpl.
  rewrite getTotalTokenUsage_logAll.
  split; [reflexivity|]. eexists. split; reflexivity.
Qed.

Lemma split_usage_is_the_sum_witness :
  let input := Sample.inputWith (Some "text") (Some "split") in
  let r := Sample.run input Sample.answeringInOrder Sample.gpt10 Sample.longPage in
  let results := map Sample.answerTo ["Sum:```abcde```"; "Sum:```fghij```"; "Sum:```kl```"] in
  sumTotalTokens results = 96 /\
  OpenaiAPIUsage.getTotalTokenUsage (openaiUsage (final r)) = sumTotalTokens results /\
  exists item,
    dataset (final r) = [item] /\
    Item.totalTokenLength item = sumTotalTokens results.
Proof.
  intros input. split; [reflexivity|].
  refine (@split_usage_is_the_sum Sample.openaiJs Sample.processorsJs input
            Sample.answering Sample.gpt10 Sample.request Sample.longPage "abcdefghijkl"
            Sample.st0 _ eq_refl _ eq_refl _ Sample.answeringInOrder _).
  - vm_compute. reflexivity.
  - vm_compute. reflexivity.
  - intros n prompt. reflexivity.
Defined.

(** C9: under [split], when the request of at least one chunk is
    rejected, no usage has been recorded when the handler fails: the
    usage object of the page is as it was created, with a total of
    zero, although all the requests were sent. *)
Theorem split_failure_records_no_usage `{OpenaiJs} `{ProcessorsJs}
  (input : Input.t) (openai : OpenAIClient) (modelConfig : ModelConfig.t)
  (request : Request.t) (page : Page.t) (html : string) (st : State) :
  originalContentHtml input page = Js.Fulfilled html ->
  ModelConfig.maxTokens modelConfig < getNumberOfTextTokens (pageContent input html) ->
  Input.longContentConfig input = Some "split" ->
  Exists (fun p => Js.is_rejected p = true)
         (chunkPromises input openai modelConfig (List.length (modelCalls st))
                        (pageChunksOf input modelConfig html)) ->
  let r := requestHandler input openai modelConfig request page st in
  openaiUsage (final r) = OpenaiAPIUsage.new (ModelConfig.model modelConfig) /\
  OpenaiAPIUsage.getTotalTokenUsage (openaiUsage (final r)) = 0 /\
  modelCalls (final r) =
  (modelCalls st ++ map (mkPrompt (Input.instructions input))
                        (pageChunksOf input modelConfig html))%list.
Proof.
  intros Hpage Hlong Hcfg Hrej. cbv zeta.
  rewrite (requestHandler_run _ _ _ _ _ _ _ Hpage). simpl.
  rewrite adapt_split by assumption. simpl.
  destruct (Promise_all_rejected _ Hrej) as (p & err & _ & _ & Hall & _).
  fold (pageChunksOf input modelConfig html).
  rewrite Hall. simpl. auto.
Qed.

Lemma split_failure_records_no_usage_witness :
  let input := Sample.inputWith (Some "text") (Some "split") in
  let r := Sample.run input Sample.failingSecond Sample.gpt10 Sample.longPage in
  openaiUsage (final r) = OpenaiAPIUsage.new "gpt-10" /\
  OpenaiAPIUsage.getTotalTokenUsage (openaiUsage (final r)) = 0 /\
  modelCalls (final r) = ["Sum:```abcde```"; "Sum:```fghij```"; "Sum:```kl```"].
Proof.
  intros input.
  refine (@split_failure_records_no_usage Sample.openaiJs Sample.processorsJs input
            Sample.failingSecond Sample.gpt10 Sample.request Sample.longPage "abcdefghijkl"
            Sample.st0 eq_refl _ eq_refl _).
  - vm_compute. reflexivity.
  - vm_compute. apply Exists_cons_tl, Exists_cons_hd. reflexivity.
Defined.

(** ** The content format *)

(** C10, as stated, fails for the empty string: it is neither
    ['markdown'] nor ['text'], but [input.content || DEFAULT_CONTENT]
    replaces it by ['markdown'], so the page is converted to markdown
    and not shrunk. *)
Lemma empty_format_is_markdown :
  let input := Sample.inputWith (Some "") None in
  let r := Sample.run input Sample.answering Sample.gpt10 Sample.shortPage in
  Input.content input <> Some "markdown" /\
  Input.content input <> Some "text" /\
  @pageContent Sample.processorsJs input "abc" = @htmlToMarkdown Sample.processorsJs "abc" /\
  @pageContent Sample.processorsJs input "abc" <> @shrinkHtml Sample.processorsJs "abc" /\
  map Item.content (dataset (final r)) = ["# abc"].
Proof.
  cbv zeta. repeat split; try discriminate; reflexivity.
Qed.

(** C10, amended: a format that is set, not empty and neither
    ['markdown'] nor ['text'] (so ['html'] and every unknown name) is
    converted by [shrinkHtml]; a format that is unset or empty is
    converted by [htmlToMarkdown].  No value of the format is rejected:
    whatever it is, the [switch] of lines 88-99 selects one of the three
    conversions. *)
Theorem format_selection `{ProcessorsJs} (input : Input.t) (html : string) :
  (forall format,
     Input.content input = Some format ->
     format <> "" -> format <> "markdown" -> format <> "text" ->
     pageContent input html = shrinkHtml html) /\
  (Input.content input = None \/ Input.content input = Some "" ->
   pageContent input html = htmlToMarkdown html) /\
  (pageContent input html = htmlToMarkdown html \/
   pageContent input html = htmlToText html \/
   pageContent input html = shrinkHtml html).
Proof.
  split; [|split].
  - intros format Hc Hne Hmd Htxt. unfold pageContent. rewrite Hc.
    destruct format as [|a s]; [contradiction|]. cbn [Js.or_else].
    apply String.eqb_neq in Hmd, Htxt. rewrite Hmd, Htxt. reflexivity.
  - intros [Hc|Hc]; unfold pageContent; rewrite Hc; reflexivity.
  - unfold pageContent. cbv zeta.
    destruct (String.eqb _ "markdown"); [auto|].
    destruct (String.eqb _ "text"); auto.
Qed.

Lemma format_selection_witness :
  @pageContent Sample.processorsJs (Sample.inputWith (Some "pdf") None) "abc" = "<p>abc</p>" /\
  @pageContent Sample.processorsJs (Sample.inputWith (Some "html") None) "abc" = "<p>abc</p>" /\
  @pageContent Sample.processorsJs (Sample.inputWith (Some "") None) "abc" = "# abc" /\
  @pageContent Sample.processorsJs (Sample.inputWith None None) "abc" = "# abc".
Proof.
  split; [|split; [|split]].
  - apply (proj1 (@format_selection Sample.processorsJs
                    (Sample.inputWith (Some "pdf") None) "abc") "pdf");
      [reflexivity|discriminate..].
  - apply (proj1 (@format_selection Sample.processorsJs
                    (Sample.inputWith (Some "html") None) "abc") "html");
      [reflexivity|discriminate..].
  - apply (proj1 (proj2 (@format_selection Sample.processorsJs
                           (Sample.inputWith (Some "") None) "abc"))).
    right. reflexivity.
  - apply (proj1 (proj2 (@format_selection Sample.processorsJs
                           (Sample.inputWith None None) "abc"))).
    left. reflexivity.
Defined.

(** * Further properties of the handler *)

(** ** Reading the page *)

(** X1: when reading the page is rejected (lines 82-84), the handler
    throws the reason as it is, outside the [try] blocks, and has done
    nothing else: no request, no item, the state is untouched. *)
Theorem page_rejected_stops_handler `{OpenaiJs} `{ProcessorsJs}
  (input : Input.t) (openai : OpenAIClient) (modelConfig : ModelConfig.t)
  (request : Request.t) (page : Page.t) (reason : Js.Error) (st : State) :
  originalContentHtml input page = Js.Rejected reason ->
  requestHandler input openai modelConfig request page st = (Throw reason, st).
Proof.
  intros Hpage. unfold requestHandler, bind. rewrite Hpage. reflexivity.
Qed.

Lemma page_rejected_stops_handler_witness :
  @requestHandler Sample.openaiJs Sample.processorsJs (Scenario.selecting "#main")
    Sample.answering Sample.gpt10 Sample.request Sample.longPage Sample.st0
  = (Throw (Js.new_Error "no element"), Sample.st0).
Proof.
  exact (@page_rejected_stops_handler Sample.openaiJs Sample.processorsJs
           (Scenario.selecting "#main") Sample.answering Sample.gpt10 Sample.request
           Sample.longPage (Js.new_Error "no element") Sample.st0 eq_refl).
Defined.

(** ** One request: pass-through and truncate *)

(** X2: when the content fits and the request is rejected, the handler
    throws the rethrown reason; the request has been sent, no usage is
    recorded and no item is pushed (lines 165-179). *)
Theorem pass_through_failure `{OpenaiJs} `{ProcessorsJs}
  (input : Input.t) (openai : OpenAIClient) (modelConfig : ModelConfig.t)
  (request : Request.t) (page : Page.t) (html : string) (st : State) (err : Js.Error) :
  originalContentHtml input page = Js.Fulfilled html ->
  getNumberOfTextTokens (pageContent input html) <= ModelConfig.maxTokens modelConfig ->
  let prompt := mkPrompt (Input.instructions input) (pageContent input html) in
  Js.settled (openai (List.length (modelCalls st)) prompt modelConfig) = Js.Rejected err ->
  requestHandler input openai modelConfig request page st =
  (Throw (rethrowOpenaiError err),
   mkState (modelCalls st ++ [prompt])
           (OpenaiAPIUsage.new (ModelConfig.model modelConfig))
           (dataset st)).
Proof.
  intros Hpage Hfit prompt Hrej.
  rewrite (requestHandler_run _ _ _ _ _ _ _ Hpage). cbv zeta.
  rewrite adapt_fits by assumption. subst prompt. cbv zeta. rewrite Hrej. reflexivity.
Qed.

Lemma pass_through_failure_witness :
  Sample.run (Sample.inputWith None None) Scenario.rejecting Sample.gpt10 Sample.shortPage
  = (Throw (Js.mkError "OpenaiError" "401"),
     mkState ["Sum:```# abc```"] (OpenaiAPIUsage.new "gpt-10") []).
Proof.
  refine (@pass_through_failure Sample.openaiJs Sample.processorsJs
            (Sample.inputWith None None) Scenario.rejecting Sample.gpt10 Sample.request
            Sample.shortPage "abc" Sample.st0 _ eq_refl _ eq_refl).
  vm_compute. discriminate.
Defined.

(** X3: when the content fits and the request is fulfilled, the handler
    ends normally and pushes the item below: the answer and the total
    tokens are those of this one request, whatever usage an earlier
    page left behind (lines 165-196). *)
Theorem pass_through_item `{OpenaiJs} `{ProcessorsJs}
  (input : Input.t) (openai : OpenAIClient) (modelConfig : ModelConfig.t)
  (request : Request.t) (page : Page.t) (html : string) (st : State)
  (answerResult : AnswerResult.t) :
  originalContentHtml input page = Js.Fulfilled html ->
  getNumberOfTextTokens (pageContent input html) <= ModelConfig.maxTokens modelConfig ->
  let pageContent := pageContent input html in
  let prompt := mkPrompt (Input.instructions input) pageContent in
  let usage := OpenaiAPIUsage.logApiCallUsage
                 (AnswerResult.usage answerResult)
                 (OpenaiAPIUsage.new (ModelConfig.model modelConfig)) in
  Js.settled (openai (List.length (modelCalls st)) prompt modelConfig)
  = Js.Fulfilled answerResult ->
  requestHandler input openai modelConfig request page st =
  (Normal tt,
   mkState (modelCalls st ++ [prompt]) usage
     (dataset st ++
      [Item.mk (Request.url request)
               (String.length pageContent)
               (getNumberOfTextTokens pageContent)
               (getNumberOfTextTokens (Input.instructions input))
               (getNumberOfTextTokens (AnswerResult.answer answerResult))
               (Usage.totalTokens (AnswerResult.usage answerResult))
               (ModelConfig.model modelConfig)
               (hasApiKeyExceeded usage (Input.openaiApiKey input))
               (AnswerResult.answer answerResult)
               html
               pageContent])).
Proof.
  intros Hpage Hfit pc prompt usage Hok.
  rewrite (requestHandler_run _ _ _ _ _ _ _ Hpage). cbv zeta.
  rewrite adapt_fits by assumption. subst usage prompt pc. cbv zeta. rewrite Hok.
  reflexivity.
Qed.

Lemma pass_through_item_witness :
  @requestHandler Sample.openaiJs Sample.processorsJs (Sample.inputWith None None)
    Sample.answering Sample.gpt10 Sample.request Sample.shortPage Scenario.later
  = (Normal tt,
     mkState ["Sum:```earlier```"; "Sum:```# abc```"]
       (OpenaiAPIUsage.mk "gpt-10" (Usage.mk 15 19 34))
       [Item.mk "https://example.com" 5 5 4 19 34 "gpt-10" false
                "Re: Sum:```# abc```" "abc" "# abc"]).
Proof.
  refine (@pass_through_item Sample.openaiJs Sample.processorsJs
            (Sample.inputWith None None) Sample.answering Sample.gpt10 Sample.request
            Sample.shortPage "abc" Scenario.later (Sample.answerTo "Sum:```# abc```")
            eq_refl _ eq_refl).
  vm_compute. discriminate.
Defined.

(** X4: under [truncate], when the request is rejected, the handler
    throws the rethrown reason; the one request, for the truncated
    content, has been sent, no usage is recorded and no item is pushed
    (lines 112-131). *)
Theorem truncate_failure `{OpenaiJs} `{ProcessorsJs}
  (input : Input.t) (openai : OpenAIClient) (modelConfig : ModelConfig.t)
  (request : Request.t) (page : Page.t) (html : string) (st : State) (err : Js.Error) :
  originalContentHtml input page = Js.Fulfilled html ->
  ModelConfig.maxTokens modelConfig < getNumberOfTextTokens (pageContent input html) ->
  Input.longContentConfig input = Some "truncate" ->
  let prompt := mkPrompt (Input.instructions input) (truncatedContentOf input modelConfig html) in
  Js.settled (openai (List.length (modelCalls st)) prompt modelConfig) = Js.Rejected err ->
  requestHandler input openai modelConfig request page st =
  (Throw (rethrowOpenaiError err),
   mkState (modelCalls st ++ [prompt])
           (OpenaiAPIUsage.new (ModelConfig.model modelConfig))
           (dataset st)).
Proof.
  intros Hpage Hlong Hcfg prompt Hrej.
  rewrite (requestHandler_run _ _ _ _ _ _ _ Hpage). cbv zeta.
  rewrite adapt_truncate by assumption. subst prompt. unfold truncatedContentOf in *.
  cbv zeta. rewrite Hrej. reflexivity.
Qed.

Lemma truncate_failure_witness :
  Sample.run (Sample.inputWith None (Some "truncate")) Scenario.rejecting Sample.gpt10
             Sample.longPage
  = (Throw (Js.mkError "OpenaiError" "401"),
     mkState ["Sum:```# abc```"] (OpenaiAPIUsage.new "gpt-10") []).
Proof.
  refine (@truncate_failure Sample.openaiJs Sample.processorsJs
            (Sample.inputWith None (Some "truncate")) Scenario.rejecting Sample.gpt10
            Sample.request Sample.longPage "abcdefghijkl" Sample.st0 _ eq_refl _ eq_refl
            eq_refl).
  vm_compute. reflexivity.
Defined.

(** X5: under [truncate], when the request is fulfilled, the handler
    ends normally and pushes the item below: the answer and the total
    tokens are those of the one request for the truncated content,
    while the content, its length and its token count are those of the
    whole converted content, a count above [maxTokens]
    (lines 112-131, 181-196). *)
Theorem truncate_item `{OpenaiJs} `{ProcessorsJs}
  (input : Input.t) (openai : OpenAIClient) (modelConfig : ModelConfig.t)
  (request : Request.t) (page : Page.t) (html : string) (st : State)
  (answerResult : AnswerResult.t) :
  originalContentHtml input page = Js.Fulfilled html ->
  ModelConfig.maxTokens modelConfig < getNumberOfTextTokens (pageContent input html) ->
  Input.longContentConfig input = Some "truncate" ->
  let pageContent := pageContent input html in
  let prompt := mkPrompt (Input.instructions input) (truncatedContentOf input modelConfig html) in
  let usage := OpenaiAPIUsage.logApiCallUsage
                 (AnswerResult.usage answerResult)
                 (OpenaiAPIUsage.new (ModelConfig.model modelConfig)) in
  Js.settled (openai (List.length (modelCalls st)) prompt modelConfig)
  = Js.Fulfilled answerResult ->
  requestHandler input openai modelConfig request page st =
  (Normal tt,
   mkState (modelCalls st ++ [prompt]) usage
     (dataset st ++
      [Item.mk (Request.url request)
               (String.length pageContent)
               (getNumberOfTextTokens pageContent)
               (getNumberOfTextTokens (Input.instructions input))
               (getNumberOfTextTokens (AnswerResult.answer answerResult))
               (Usage.totalTokens (AnswerResult.usage answerResult))
               (ModelConfig.model modelConfig)
               (hasApiKeyExceeded usage (Input.openaiApiKey input))
               (AnswerResult.answer answerResult)
               html
               pageContent])).
Proof.
  intros Hpage Hlong Hcfg pc prompt usage Hok.
  rewrite (requestHandler_run _ _ _ _ _ _ _ Hpage). cbv zeta.
  rewrite adapt_truncate by assumption. subst usage prompt pc.
  unfold truncatedContentOf in *. cbv zeta. rewrite Hok. reflexivity.
Qed.

Lemma truncate_item_witness :
  Sample.run (Sample.inputWith None (Some "truncate")) Sample.answering Sample.gpt10
             Sample.longPage
  = (Normal tt,
     mkState ["Sum:```# abc```"]
       (OpenaiAPIUsage.mk "gpt-10" (Usage.mk 15 19 34))
       [Item.mk "https://example.com" 14 14 4 19 34 "gpt-10" false
                "Re: Sum:```# abc```" "abcdefghijkl" "# abcdefghijkl"]).
Proof.
  refine (@truncate_item Sample.openaiJs Sample.processorsJs
            (Sample.inputWith None (Some "truncate")) Sample.answering Sample.gpt10
            Sample.request Sample.longPage "abcdefghijkl" Sample.st0
            (Sample.answerTo "Sum:```# abc```") eq_refl _ eq_refl eq_refl).
  vm_compute. reflexivity.
Defined.

(** ** Split without chunks *)

(** X6: under [split], when the chunker returns no chunk, the handler
    sends no request and still ends normally: it pushes an item with an
    empty answer and a total of zero tokens (lines 132-161, 181-196). *)
Theorem split_without_chunks `{OpenaiJs} `{ProcessorsJs}
  (input : Input.t) (openai : OpenAIClient) (modelConfig : ModelConfig.t)
  (request : Request.t) (page : Page.t) (html : string) (st : State) :
  originalContentHtml input page = Js.Fulfilled html ->
  ModelConfig.maxTokens modelConfig < getNumberOfTextTokens (pageContent input html) ->
  Input.longContentConfig input = Some "split" ->
  pageChunksOf input modelConfig html = [] ->
  let pageContent := pageContent input html in
  let usage := OpenaiAPIUsage.new (ModelConfig.model modelConfig) in
  requestHandler input openai modelConfig request page st =
  (Normal tt,
   mkState (modelCalls st) usage
     (dataset st ++
      [Item.mk (Request.url request)
               (String.length pageContent)
               (getNumberOfTextTokens pageContent)
               (getNumberOfTextTokens (Input.instructions input))
               (getNumberOfTextTokens "")
               0
               (ModelConfig.model modelConfig)
               (hasApiKeyExceeded usage (Input.openaiApiKey input))
               ""
               html
               pageContent])).
Proof.
  intros Hpage Hlong Hcfg Hnone pc usage.
  rewrite (requestHandler_run _ _ _ _ _ _ _ Hpage). cbv zeta.
  rewrite adapt_split by assumption. cbv zeta.
  unfold pageChunksOf in Hnone. rewrite Hnone. simpl. rewrite app_nil_r. reflexivity.
Qed.

Lemma split_without_chunks_witness :
  @requestHandler Sample.openaiJs Scenario.noChunks (Sample.inputWith None (Some "split"))
    Sample.answering Sample.gpt10 Sample.request Sample.longPage Sample.st0
  = (Normal tt,
     mkState [] (OpenaiAPIUsage.new "gpt-10")
       [Item.mk "https://example.com" 14 14 4 0 0 "gpt-10" false
                "" "abcdefghijkl" "# abcdefghijkl"]).
Proof.
  refine (@split_without_chunks Sample.openaiJs Scenario.noChunks
            (Sample.inputWith None (Some "split")) Sample.answering Sample.gpt10
            Sample.request Sample.longPage "abcdefghijkl" Sample.st0
            eq_refl _ eq_refl eq_refl).
  vm_compute. reflexivity.
Defined.

(** ** All paths *)

Section AllPaths.

Context {openaiJs : OpenaiJs} {processorsJs : ProcessorsJs}.
Variable input : Input.t.
Variable openai : OpenAIClient.
Variable modelConfig : ModelConfig.t.

(** [adapt] starts from a new usage object: the one in the state it is
    run from plays no part. *)
Lemma adapt_ignores_usage pageContent contentTokenLength instructionTokenLength st usage :
  adapt input openai modelConfig pageContent contentTokenLength instructionTokenLength
        (mkState (modelCalls st) usage (dataset st)) =
  adapt input openai modelConfig pageContent contentTokenLength instructionTokenLength st.
Proof.
  unfold adapt, bind at 1, new_OpenaiAPIUsage. simpl.
  unfold bind at 4, new_OpenaiAPIUsage. reflexivity.
Qed.

(** The requests [adapt] sends are prompts made of the instructions and
    of a part of the page: none, the content, the truncated content or
    the chunks. *)
Lemma adapt_modelCalls pageContent contentTokenLength instructionTokenLength st :
  exists parts,
    modelCalls (snd (adapt input openai modelConfig pageContent
                           contentTokenLength instructionTokenLength st))
    = (modelCalls st ++ map (mkPrompt (Input.instructions input)) parts)%list /\
    (parts = [] \/
     parts = [pageContent] \/
     parts = [shortsTextByTokenLength pageContent
                (contentMaxTokens modelConfig instructionTokenLength)] \/
     parts = chunkTextByTokenLenght pageContent
               (contentMaxTokens modelConfig instructionTokenLength)).
Proof.
  destruct (Z.le_gt_cases contentTokenLength (ModelConfig.maxTokens modelConfig)) as [Hfit|Hlong].
  - exists [pageContent]. rewrite adapt_fits by assumption. cbv zeta.
    split; [destruct (Js.settled _); reflexivity|auto].
  - destruct (longContentConfig_cases input) as [Hc|[Hc|[Hc|(H1 & H2 & H3)]]].
    + exists []. rewrite adapt_skip by assumption. simpl. rewrite app_nil_r. auto.
    + exists [shortsTextByTokenLength pageContent
                (contentMaxTokens modelConfig instructionTokenLength)].
      rewrite adapt_truncate by assumption. cbv zeta.
      split; [destruct (Js.settled _); reflexivity|auto].
    + exists (chunkTextByTokenLenght pageContent
                (contentMaxTokens modelConfig instructionTokenLength)).
      rewrite adapt_split by assumption. cbv zeta.
      split; [destruct (Js.Promise_all _); reflexivity|auto 6].
    + exists []. rewrite adapt_unsupported by assumption. simpl. rewrite app_nil_r. auto.
Qed.

(** [adapt] returns early exactly on the skip path. *)
Lemma adapt_return pageContent contentTokenLength instructionTokenLength st :
  fst (adapt input openai modelConfig pageContent
             contentTokenLength instructionTokenLength st) = Return <->
  ModelConfig.maxTokens modelConfig < contentTokenLength /\
  Input.longContentConfig input = Some "skip".
Proof.
  destruct (Z.le_gt_cases contentTokenLength (ModelConfig.maxTokens modelConfig)) as [Hfit|Hlong].
  - rewrite adapt_fits by assumption. cbv zeta. split.
    + destruct (Js.settled _); discriminate.
    + intros [Hlong _]. lia.
  - destruct (longContentConfig_cases input) as [Hc|[Hc|[Hc|(H1 & H2 & H3)]]].
    + rewrite adapt_skip by assumption. simpl. tauto.
    + rewrite adapt_truncate by assumption. cbv zeta. split.
      * destruct (Js.settled _); discriminate.
      * intros [_ Hs]. congruence.
    + rewrite adapt_split by assumption. cbv zeta. split.
      * destruct (Js.Promise_all _); discriminate.
      * intros [_ Hs]. congruence.
    + rewrite adapt_unsupported by assumption. simpl. split; [discriminate|tauto].
Qed.

End AllPaths.

(** X7: a run of the handler pushes one item when it ends normally and
    none otherwise (early return or exception); the items pushed before
    stay as they are (lines 82-196). *)
Theorem one_item_iff_normal `{OpenaiJs} `{ProcessorsJs}
  (input : Input.t) (openai : OpenAIClient) (modelConfig : ModelConfig.t)
  (request : Request.t) (page : Page.t) (st : State) :
  let r := requestHandler input openai modelConfig request page st in
  (outcome r = Normal tt /\ exists item, dataset (final r) = (dataset st ++ [item])%list) \/
  (outcome r <> Normal tt /\ dataset (final r) = dataset st).
Proof.
  cbv zeta. destruct (originalContentHtml input page) as [html|reason] eqn:Hpage.
  - rewrite (requestHandler_run _ _ _ _ _ _ _ Hpage). cbv zeta.
    pose proof (adapt_dataset input openai modelConfig (pageContent input html)
                  (getNumberOfTextTokens (pageContent input html))
                  (getNumberOfTextTokens (Input.instructions input)) st) as Hds.
    destruct (adapt _ _ _ _ _ _ st) as [[answer| |e] st']; simpl in *.
    + left. split; [reflexivity|]. rewrite Hds. eexists. reflexivity.
    + right. split; [discriminate|exact Hds].
    + right. split; [discriminate|exact Hds].
  - unfold requestHandler, bind. rewrite Hpage. simpl.
    right. split; [discriminate|reflexivity].
Qed.

(** X8: every request a run of the handler sends is a prompt made of
    the instructions and, between fences, a part of the page; the parts
    are none, the whole content, the truncated content, or the chunks
    in their order.  No other prompt is ever sent (lines 103-179). *)
Theorem requests_are_instruction_prompts `{OpenaiJs} `{ProcessorsJs}
  (input : Input.t) (openai : OpenAIClient) (modelConfig : ModelConfig.t)
  (request : Request.t) (page : Page.t) (html : string) (st : State) :
  originalContentHtml input page = Js.Fulfilled html ->
  exists parts,
    modelCalls (final (requestHandler input openai modelConfig request page st))
    = (modelCalls st ++ map (mkPrompt (Input.instructions input)) parts)%list /\
    (parts = [] \/
     parts = [pageContent input html] \/
     parts = [truncatedContentOf input modelConfig html] \/
     parts = pageChunksOf input modelConfig html).
Proof.
  intros Hpage. rewrite (requestHandler_run _ _ _ _ _ _ _ Hpage). cbv zeta.
  destruct (adapt_modelCalls input openai modelConfig (pageContent input html)
              (getNumberOfTextTokens (pageContent input html))
              (getNumberOfTextTokens (Input.instructions input)) st)
    as (parts & Hcalls & Hparts).
  exists parts. split; [|exact Hparts].
  destruct (adapt _ _ _ _ _ _ st) as [[answer| |e] st']; exact Hcalls.
Qed.

Lemma requests_are_instruction_prompts_witness :
  exists parts,
    modelCalls (final (Sample.run (Sample.inputWith (Some "text") (Some "split"))
                                  Sample.failingSecond Sample.gpt10 Sample.longPage))
    = map (mkPrompt "Sum:") parts /\
    (parts = [] \/
     parts = ["abcdefghijkl"] \/
     parts = ["abcde"] \/
     parts = ["abcde"; "fghij"; "kl"]).
Proof.
  exact (@requests_are_instruction_prompts Sample.openaiJs Sample.processorsJs
           (Sample.inputWith (Some "text") (Some "split")) Sample.failingSecond Sample.gpt10
           Sample.request Sample.longPage "abcdefghijkl" Sample.st0 eq_refl).
Defined.

(** X9: the usage object is made anew for each page: a run of the
    handler, outcome and final state, is the same whatever usage object
    an earlier page left in the state (line 104). *)
Theorem usage_object_made_anew `{OpenaiJs} `{ProcessorsJs}
  (input : Input.t) (openai : OpenAIClient) (modelConfig : ModelConfig.t)
  (request : Request.t) (page : Page.t) (html : string) (st : State)
  (usage : OpenaiAPIUsage.t) :
  originalContentHtml input page = Js.Fulfilled html ->
  requestHandler input openai modelConfig request page
                 (mkState (modelCalls st) usage (dataset st)) =
  requestHandler input openai modelConfig request page st.
Proof.
  intros Hpage. rewrite !(requestHandler_run _ _ _ _ _ _ _ Hpage). cbv zeta.
  rewrite adapt_ignores_usage. reflexivity.
Qed.

Lemma usage_object_made_anew_witness :
  @requestHandler Sample.openaiJs Sample.processorsJs (Sample.inputWith None None)
    Sample.answering Sample.gpt10 Sample.request Sample.shortPage
    (mkState ["Sum:```earlier```"] (OpenaiAPIUsage.new "") []) =
  @requestHandler Sample.openaiJs Sample.processorsJs (Sample.inputWith None None)
    Sample.answering Sample.gpt10 Sample.request Sample.shortPage Scenario.later.
Proof.
  exact (@usage_object_made_anew Sample.openaiJs Sample.processorsJs
           (Sample.inputWith None None) Sample.answering Sample.gpt10 Sample.request
           Sample.shortPage "abc" Scenario.later (OpenaiAPIUsage.new "") eq_refl).
Defined.

(** X10: once the page is read, the handler returns early exactly when
    the content has more than [maxTokens] tokens and the policy is
    [skip]; on every other path it pushes an item or throws
    (lines 105-111). *)
Theorem early_return_only_on_skip `{OpenaiJs} `{ProcessorsJs}
  (input : Input.t) (openai : OpenAIClient) (modelConfig : ModelConfig.t)
  (request : Request.t) (page : Page.t) (html : string) (st : State) :
  originalContentHtml input page = Js.Fulfilled html ->
  outcome (requestHandler input openai modelConfig request page st) = Return <->
  ModelConfig.maxTokens modelConfig < getNumberOfTextTokens (pageContent input html) /\
  Input.longContentConfig input = Some "skip".
Proof.
  intros Hpage. rewrite (requestHandler_run _ _ _ _ _ _ _ Hpage). cbv zeta.
  rewrite <- (adapt_return input openai modelConfig (pageContent input html) _
                (getNumberOfTextTokens (Input.instructions input)) st).
  destruct (adapt _ _ _ _ _ _ st) as [[answer| |e] st']; simpl;
    split; (discriminate || reflexivity).
Qed.

Lemma early_return_only_on_skip_witness :
  outcome (Sample.run (Sample.inputWith None (Some "skip")) Sample.answering Sample.gpt10
                      Sample.longPage) = Return <->
  ModelConfig.maxTokens Sample.gpt10 <
    @getNumberOfTextTokens Sample.openaiJs
      (@pageContent Sample.processorsJs (Sample.inputWith None (Some "skip")) "abcdefghijkl") /\
  Input.longContentConfig (Sample.inputWith None (Some "skip")) = Some "skip".
Proof.
  exact (@early_return_only_on_skip Sample.openaiJs Sample.processorsJs
           (Sample.inputWith None (Some "skip")) Sample.answering Sample.gpt10
           Sample.request Sample.longPage "abcdefghijkl" Sample.st0 eq_refl).
Defined.

(** ** The budget *)

(** X11: the budget of lines 113 and 133 is negative exactly when ten
    times the tokens of the instructions exceed nine times [maxTokens]. *)
Theorem budget_negative_iff (modelConfig : ModelConfig.t) (instructionTokenLength : Z) :
  (contentMaxTokens modelConfig instructionTokenLength < 0)%Q <->
  9 * ModelConfig.maxTokens modelConfig < 10 * instructionTokenLength.
Proof.
  unfold contentMaxTokens, Qlt, Qminus, Qplus, Qopp, Qmult, inject_Z.
  cbn [Qnum Qden Pos.mul]. lia.
Qed.

(** X12: when the content has more than [maxTokens] tokens (the only
    case in which the budget is computed) and the token counts are not
    negative, the budget handed to the chunker is below the token count
    of the content, by more than a tenth of [maxTokens]: the chunker
    always has to cut (lines 105, 113, 133). *)
Theorem budget_below_content (modelConfig : ModelConfig.t)
  (contentTokenLength instructionTokenLength : Z) :
  0 <= ModelConfig.maxTokens modelConfig ->
  0 <= instructionTokenLength ->
  ModelConfig.maxTokens modelConfig < contentTokenLength ->
  (contentMaxTokens modelConfig instructionTokenLength
   + inject_Z (ModelConfig.maxTokens modelConfig) * (1 # 10)
   < inject_Z contentTokenLength)%Q.
Proof.
  intros Hmax Hinstr Hlong.
  unfold contentMaxTokens, Qlt, Qminus, Qplus, Qopp, Qmult, inject_Z.
  cbn [Qnum Qden Pos.mul]. lia.
Qed.

Lemma budget_below_content_witness :
  (contentMaxTokens Sample.gpt10 4 + inject_Z 10 * (1 # 10) < inject_Z 14)%Q.
Proof.
  apply (budget_below_content Sample.gpt10 14 4); simpl; lia.
Defined.

(** ** Link discovery *)

(** The depth limit does not count as reached when it is unset, zero,
    or at most the depth. *)
Lemma isDepthLimitReached_false (input : CrawlInput.t) (depth : Z) :
  isDepthLimitReached input depth = false <->
  CrawlInput.maxCrawlingDepth input = None \/
  CrawlInput.maxCrawlingDepth input = Some 0 \/
  exists max, CrawlInput.maxCrawlingDepth input = Some max /\ max <= depth.
Proof.
  unfold isDepthLimitReached.
  destruct (CrawlInput.maxCrawlingDepth input) as [max|]; [|simpl; tauto].
  destruct (Z.eq_dec max 0) as [->|Hnz].
  - simpl. tauto.
  - replace (JsNumber.truthy (Some max)) with true by (destruct max; [contradiction|reflexivity..]).
    cbn [andb JsNumber.lt]. rewrite Z.ltb_ge. split.
    + intros Hle. right; right. eauto.
    + intros [E|[E|(m & E & Hle)]]; [discriminate|congruence|].
      inversion E; subst. exact Hle.
Qed.

(** X13: the handler calls [enqueueLinks] exactly when the link selector
    is a string that is not empty, the globs are an array that is not
    empty and the depth limit is unset, zero, or at most the depth of
    the page; the links then get the depth of the page plus one, a page
    without depth counting as depth 0 (lines 59-70). *)
Theorem linkDiscovery_spec (input : CrawlInput.t) (userData_depth : option Z)
  (options : EnqueueLinks.t) :
  linkDiscovery input userData_depth = Some options <->
  exists selector globs,
    CrawlInput.linkSelector input = Some selector /\ selector <> "" /\
    CrawlInput.globs input = Some globs /\ globs <> [] /\
    (CrawlInput.maxCrawlingDepth input = None \/
     CrawlInput.maxCrawlingDepth input = Some 0 \/
     exists max, CrawlInput.maxCrawlingDepth input = Some max /\
                 max <= depthOf userData_depth) /\
    options = EnqueueLinks.mk selector globs (depthOf userData_depth + 1).
Proof.
  unfold linkDiscovery. cbv zeta.
  destruct (CrawlInput.linkSelector input) as [[|a s]|].
  - split; [discriminate|]. intros (sel & gl & E & Hne & _). inversion E; subst.
    contradiction.
  - destruct (CrawlInput.globs input) as [[|g gs]|].
    + split; [discriminate|]. intros (sel & gl & _ & _ & E & Hne & _).
      inversion E; subst. contradiction.
    + destruct (isDepthLimitReached input (depthOf userData_depth)) eqn:Hr; simpl; split.
      * discriminate.
      * intros (sel & gl & _ & _ & _ & _ & Hd & _).
        apply isDepthLimitReached_false in Hd. congruence.
      * intros E; inversion E; subst.
        exists (String a s), (g :: gs).
        repeat split; try discriminate.
        apply isDepthLimitReached_false. exact Hr.
      * intros (sel & gl & Es & _ & Eg & _ & _ & ->).
        inversion Es; inversion Eg; subst. reflexivity.
    + split; [discriminate|]. intros (sel & gl & _ & _ & E & _). discriminate.
  - split; [discriminate|]. intros (sel & gl & E & _). discriminate.
Qed.

(** X14: with a depth limit that is not zero, a page whose depth is
    below the limit enqueues no link, whatever the selector and the
    globs; so does every page without depth when the limit is positive
    (line 62: the limit counts as reached while [depth < maxCrawlingDepth]). *)
Theorem no_links_below_depth_limit (input : CrawlInput.t) (userData_depth : option Z)
  (max : Z) :
  CrawlInput.maxCrawlingDepth input = Some max ->
  max <> 0 ->
  depthOf userData_depth < max ->
  linkDiscovery input userData_depth = None.
Proof.
  intros Hmax Hnz Hlt. unfold linkDiscovery, isDepthLimitReached. rewrite Hmax.
  apply Z.ltb_lt in Hlt. simpl. rewrite Hlt.
  destruct max; [contradiction| |]; simpl;
    destruct (CrawlInput.linkSelector input) as [[|a s]|];
    destruct (CrawlInput.globs input) as [[|g gs]|]; reflexivity.
Qed.

Lemma no_links_below_depth_limit_witness :
  linkDiscovery Scenario.twoLevels None = None /\
  linkDiscovery Scenario.twoLevels (Some 1) = None.
Proof.
  split.
  - apply (no_links_below_depth_limit Scenario.twoLevels None 2); [reflexivity|discriminate|].
    simpl. lia.
  - apply (no_links_below_depth_limit Scenario.twoLevels (Some 1) 2);
      [reflexivity|discriminate|].
    simpl. lia.
Defined.

(** ** The set-up of the run *)

(** X15: the limit of requests given to the crawler is never zero: it
    is [maxPagesPerCrawl] when that is set and not zero, and 100 when
    it is unset or zero.  The model name given to [validateGPTModel] is
    never empty: it is [model] when that is set and not empty, and
    [gpt-3.5-turbo] otherwise (lines 22, 25, 38, 56). *)
Theorem setup_defaults (input : CrawlInput.t) :
  maxRequestsPerCrawl input <> 0 /\
  (forall n, CrawlInput.maxPagesPerCrawl input = Some n -> n <> 0 ->
             maxRequestsPerCrawl input = n) /\
  (CrawlInput.maxPagesPerCrawl input = None \/ CrawlInput.maxPagesPerCrawl input = Some 0 ->
   maxRequestsPerCrawl input = 100) /\
  modelName input <> "" /\
  (forall name, CrawlInput.model input = Some name -> name <> "" ->
                modelName input = name) /\
  (CrawlInput.model input = None \/ CrawlInput.model input = Some "" ->
   modelName input = "gpt-3.5-turbo").
Proof.
  unfold maxRequestsPerCrawl, modelName.
  destruct input as [sel gl mdl pages depth]; simpl.
  repeat split.
  - destruct pages as [[|p|p]|]; simpl; discriminate.
  - intros n E Hn. inversion E; subst. destruct n; [contradiction|reflexivity..].
  - intros [E|E]; inversion E; subst; reflexivity.
  - destruct mdl as [[|a s]|]; simpl; discriminate.
  - intros name E Hn. inversion E; subst. destruct name; [contradiction|reflexivity].
  - intros [E|E]; inversion E; subst; reflexivity.
Qed.
